(** * The sequential collaboration pipeline of the startup co-founder system

    A shallow embedding of [workflows/collaboration.py] and of the three agents
    under [agents/], followed by the properties of the pipeline contract.

    Modelling conventions.
    - A Python [str] is a [string]: the bytes of its UTF-8 encoding.  Substring
      and emptiness on code points and on these bytes agree.
    - An optional argument ([strategy_context: str = None]) is an
      [option string]; [None] is Python's [None].
    - The shared [AgentState] dictionary is a [gmap string string];
      [state[k]] on a missing key raises [KeyError].
    - The hosted model behind [ChatGroq] is an oracle: given the client that is
      called, the calls made so far and the messages, it answers with the text
      of the response or raises.  Every call is appended to a log, so that the
      calls a run makes can be counted.  Sampling temperature, model name and
      credentials are part of the oracle.
    - Code that may raise or call the model lives in the monad [M]: the log is
      threaded through and the first exception ends the computation.  The
      source has no [try]; the monad has no handler.
    - [print] calls are console output and are left out. *)

From Stdlib Require Import String Ascii List Bool Arith Lia.
From stdpp Require Import base option list gmap strings.

Open Scope string_scope.

(** ** Python strings *)

Module Py.

Definition dquote : string := String "034"%char EmptyString.

(** [bool(v)] for a value that is [None] or a [str]. *)
Definition truthy (v : option string) : bool :=
  match v with
  | None => false
  | Some EmptyString => false
  | Some (String _ _) => true
  end.

(** [str(v)], what an f-string field [{v}] renders. *)
Definition str (v : option string) : string :=
  match v with
  | None => "None"
  | Some s => s
  end.

(** [s.startswith(p)] *)
Fixpoint startswith (s p : string) : bool :=
  match p, s with
  | EmptyString, _ => true
  | String _ _, EmptyString => false
  | String a p', String b s' => if Ascii.eqb a b then startswith s' p' else false
  end.

(** [sub in s] *)
Fixpoint contains_b (sub s : string) : bool :=
  startswith s sub ||
  match s with
  | EmptyString => false
  | String _ s' => contains_b sub s'
  end.

(** [sub in s], as a proposition: [sub] is a contiguous part of [s]. *)
Definition contains (sub s : string) : Prop :=
  ∃ before after : string, s = before +:+ sub +:+ after.

(** The number of positions of [s] at which [sub] starts. *)
Fixpoint occurrences (sub s : string) : nat :=
  (if startswith s sub then 1 else 0) +
  match s with
  | EmptyString => 0
  | String _ s' => occurrences sub s'
  end.

(** [s.endswith(p)], as a proposition. *)
Definition endswith (s p : string) : Prop :=
  ∃ before : string, s = before +:+ p.

(** [s.endswith(p)] *)
Fixpoint endswith_b (s p : string) : bool :=
  String.eqb s p ||
  match s with
  | EmptyString => false
  | String _ s' => endswith_b s' p
  end.

(** [c in s] for one byte. *)
Fixpoint has_byte (c : ascii) (s : string) : bool :=
  match s with
  | EmptyString => false
  | String a s' => Ascii.eqb a c || has_byte c s'
  end.

End Py.

(** ** Exceptions, messages and the generator log *)

Inductive Exn : Type :=
  | KeyError (key : string)
  | ValueError (msg : string)
  | GraphRecursionError
  | APIError (detail : string).

Inductive Message : Type :=
  | SystemMessage (content : string)
  | HumanMessage (content : string).

(** The three [ChatGroq] objects of a workflow, one per agent. *)
Inductive Client : Type := StrategyLLM | TechnicalLLM | MarketingLLM.

(** One invocation of a generator. *)
Record Call : Type := mkCall { callee : Client; sent : list Message }.

(** The hosted service: the answer (or the exception) to a call, given the
    calls made before it. *)
Definition Groq : Type := Client → list Call → list Message → Exn + string.

Definition M (A : Type) : Type := list Call → list Call * (Exn + A).

#[global] Instance M_ret : MRet M := λ A (x : A) log, (log, inr x).

#[global] Instance M_bind : MBind M := λ A B (f : A → M B) (m : M A) log,
  match m log with
  | (log', inl e) => (log', inl e)
  | (log', inr x) => f x log'
  end.

Definition raise {A : Type} (e : Exn) : M A := λ log, (log, inl e).

(** [d[k]] *)
Definition getitem (d : gmap string string) (k : string) : M string :=
  match d !! k with
  | Some v => mret v
  | None => raise (KeyError k)
  end.

Definition client_eqb (a b : Client) : bool :=
  match a, b with
  | StrategyLLM, StrategyLLM | TechnicalLLM, TechnicalLLM | MarketingLLM, MarketingLLM => true
  | _, _ => false
  end.

(** The calls of a log that went to client [c]. *)
Definition calls_to (c : Client) (log : list Call) : list Call :=
  List.filter (λ k, client_eqb (callee k) c) log.

(** ** [langchain_groq.ChatGroq] *)

Module ChatGroq.

Record t : Type := new { client : Client; reply : list Call → list Message → Exn + string }.

(** [llm.invoke(messages).content]: exactly one call, logged whether it
    answers or raises. *)
Definition invoke (self : t) (messages : list Message) : M string :=
  λ log, ((log ++ [mkCall (client self) messages])%list, reply self log messages).

End ChatGroq.

(** ** [agents/strategy_agent.py] *)

Module StrategyAgent.

Record t : Type := mk { llm : ChatGroq.t; system_prompt : string }.

Definition __init__ (groq : Groq) : t :=
  {| llm := ChatGroq.new StrategyLLM (groq StrategyLLM);
     system_prompt := "You are an experienced CEO and business strategist with 20+ years of experience in startup advisory. 

Your expertise includes:
- Business model design and validation
- Market analysis and competitive positioning
- Revenue strategy and growth planning
- Risk assessment and mitigation
- Strategic planning and execution

When analyzing a startup idea, you provide:
1. **Business Model Analysis**: How the business will work
2. **Market Opportunity**: Target market size and potential
3. **Competitive Landscape**: Key competitors and differentiation
4. **Revenue Streams**: How the business will make money
5. **Strategic Recommendations**: Key actions and priorities
6. **Risk Assessment**: Potential challenges and mitigation strategies

Be thorough, analytical, and provide actionable insights. Use clear structure and bullet points for readability." |}.

(** The [HumanMessage] content built by [analyze_startup_idea]. *)
Definition prompt (startup_idea : string) : string :=
  "Analyze this startup idea comprehensively:

**Startup Idea:** "
    +:+ startup_idea
    +:+ "

Provide a detailed strategic analysis covering:
1. Business Model & Value Proposition
2. Target Market & Customer Segments
3. Competitive Analysis
4. Revenue Model & Pricing Strategy
5. Key Success Factors
6. Potential Risks & Mitigation
7. Strategic Recommendations & Next Steps

Be specific and actionable in your recommendations.".

Definition analyze_startup_idea (self : t) (startup_idea : string) : M string :=
  let messages :=
    [ SystemMessage (system_prompt self);
      HumanMessage (prompt startup_idea) ] in
  response ← ChatGroq.invoke (llm self) messages;
  mret response.

(** The [HumanMessage] content built by [get_quick_feedback]. *)
Definition quick_prompt (startup_idea : string) : string :=
  "Provide quick strategic feedback on this idea in 3-4 sentences:

"
  +:+ startup_idea
  +:+ "

Focus on: viability, key opportunity, and one major risk.".

Definition get_quick_feedback (self : t) (startup_idea : string) : M string :=
  let messages :=
    [ SystemMessage (system_prompt self);
      HumanMessage (quick_prompt startup_idea) ] in
  response ← ChatGroq.invoke (llm self) messages;
  mret response.

End StrategyAgent.

(** ** [agents/technical_agent.py] *)

Module TechnicalAgent.

Record t : Type := mk { llm : ChatGroq.t; system_prompt : string }.

Definition __init__ (groq : Groq) : t :=
  {| llm := ChatGroq.new TechnicalLLM (groq TechnicalLLM);
     system_prompt := "You are an experienced CTO and technical architect with 15+ years in software development and system design.

Your expertise includes:
- Technology stack selection and architecture design
- Scalability and performance optimization
- Development timeline and resource estimation
- Technical risk assessment and mitigation
- DevOps, security, and infrastructure planning
- Cost-effective technical solutions

**IMPORTANT - Collaborative Approach:**
You will receive business strategy insights from the Strategy Agent. Your job is to:
1. **Read and understand** the business requirements carefully
2. **Reference specific business needs** in your recommendations
3. **Align technical decisions** with business goals, budget, and timeline
4. **Explain WHY** each technical choice supports the business strategy

When analyzing, provide:
1. **Recommended Tech Stack**: Specific technologies with justifications tied to business needs
2. **System Architecture**: High-level design that supports the business model
3. **Development Roadmap**: Phased approach aligned with business priorities
4. **Resource Requirements**: Team size, skills, and budget estimates
5. **Technical Risks**: Challenges and mitigation strategies
6. **Scalability Plan**: How the system will grow with the business

Always connect your technical recommendations back to the business strategy. 
For example: " +:+ Py.dquote +:+ "Given the target of busy professionals mentioned in the strategy, 
we'll prioritize mobile-first design and quick load times under 2 seconds." +:+ Py.dquote +:+ "
" |}.

(** The local [prompt] of [analyze_technical_requirements]. *)
Definition prompt (startup_idea : string) (strategy_context : option string) : string :=
  if Py.truthy strategy_context then
    "Based on the business strategy analysis below, provide comprehensive technical recommendations.

**BUSINESS STRATEGY ANALYSIS:**
"
    +:+ Py.str strategy_context
    +:+ "

**ORIGINAL STARTUP IDEA:**
"
    +:+ startup_idea
    +:+ "

Now, as the CTO, provide technical analysis that ALIGNS with the business strategy above. 

Structure your response as:

## 1. Technical Strategy Overview
(How your technical approach supports the business goals)

## 2. Recommended Technology Stack
(Specific technologies with justifications linked to business needs)
- Frontend:
- Backend:
- Database:
- Infrastructure:
- AI/ML (if applicable):

## 3. System Architecture
(High-level design that supports the business model)

## 4. Development Roadmap
(Phased approach aligned with business priorities and timeline)
- Phase 1 (MVP):
- Phase 2 (Scale):
- Phase 3 (Advanced):

## 5. Team & Resource Requirements
(Based on the business strategy and timeline)

## 6. Technical Risks & Mitigation
(Specific to this business model and market)

## 7. Cost Estimates
(Infrastructure and development costs aligned with business budget)

## 8. Scalability & Performance Strategy
(How we'll handle growth based on business projections)

**Remember:** Reference specific points from the business strategy in your recommendations!"
  else
    "Analyze the technical requirements for this startup idea:

**STARTUP IDEA:**
"
    +:+ startup_idea
    +:+ "

Provide comprehensive technical recommendations covering:
1. Technology Stack
2. System Architecture
3. Development Roadmap
4. Resource Requirements
5. Technical Risks
6. Cost Estimates
7. Scalability Plan".

Definition analyze_technical_requirements
    (self : t) (startup_idea : string) (strategy_context : option string) : M string :=
  let prompt := prompt startup_idea strategy_context in
  let messages :=
    [ SystemMessage (system_prompt self);
      HumanMessage prompt ] in
  response ← ChatGroq.invoke (llm self) messages;
  mret response.

(** The [HumanMessage] content built by [quick_tech_assessment]. *)
Definition quick_prompt (startup_idea : string) : string :=
  "Provide a quick technical assessment (3-4 sentences) for:

"
  +:+ startup_idea
  +:+ "

Focus on: recommended tech stack, biggest technical challenge, and estimated timeline.".

Definition quick_tech_assessment (self : t) (startup_idea : string) : M string :=
  let messages :=
    [ SystemMessage (system_prompt self);
      HumanMessage (quick_prompt startup_idea) ] in
  response ← ChatGroq.invoke (llm self) messages;
  mret response.

End TechnicalAgent.

(** ** [agents/marketing_agent.py] *)

Module MarketingAgent.

Record t : Type := mk { llm : ChatGroq.t; system_prompt : string }.

Definition __init__ (groq : Groq) : t :=
  {| llm := ChatGroq.new MarketingLLM (groq MarketingLLM);
     system_prompt := "You are an experienced CMO and marketing strategist with 15+ years in brand building, customer acquisition, and growth marketing.

Your expertise includes:
- Brand positioning and messaging
- Customer acquisition strategy (paid and organic)
- Content marketing and storytelling
- Channel strategy and optimization
- Growth hacking and viral marketing
- Marketing budget allocation and ROI

**CRITICAL - Collaborative Mindset:**
You work closely with the Strategy Agent (CEO) and Technical Agent (CTO). Your marketing plans must:

1. **Align with Business Strategy**: 
   - Target the exact customer segments identified
   - Support the revenue model and pricing
   - Match the timeline and growth goals
   
2. **Work with Technical Constraints**:
   - Market what can actually be built
   - Time campaigns with product launch dates
   - Consider platform limitations (web vs mobile vs both)
   
3. **Create Cohesion**:
   - Reference specific points from strategy and tech analyses
   - Show how marketing supports both business and technical plans
   - Build bridges between different aspects of the business

When creating marketing strategy, provide:
1. **Brand Positioning**: How we'll position in the market (based on competitive analysis)
2. **Target Audience Strategy**: Specific segments with acquisition tactics
3. **Marketing Channels**: Prioritized based on budget, timeline, and platform
4. **Content Strategy**: What we'll create and why
5. **Go-to-Market Plan**: Phased approach aligned with product development
6. **Budget Allocation**: How to spend limited resources effectively
7. **Success Metrics**: KPIs that matter for this specific business

Always reference the strategy and technical context in your recommendations!
" |}.

(** The local [prompt] of [create_marketing_strategy]. *)
Definition prompt
    (startup_idea : string) (strategy_context technical_context : option string) : string :=
  if Py.truthy strategy_context && Py.truthy technical_context then
    "You are the CMO. Read the analyses from your CEO (Strategy) and CTO (Technical) below, then create a marketing strategy that aligns with both.

**CEO'S BUSINESS STRATEGY:**
"
    +:+ Py.str strategy_context
    +:+ "

**CTO'S TECHNICAL PLAN:**
"
    +:+ Py.str technical_context
    +:+ "

**ORIGINAL STARTUP IDEA:**
"
    +:+ startup_idea
    +:+ "

Now, create a comprehensive marketing strategy that:
- Targets the customers identified by the CEO
- Works within the budget and timeline from business strategy
- Aligns with the technical platform and launch plan from CTO
- Creates a cohesive go-to-market approach

Structure your response as:

## 1. Brand Positioning & Messaging
(Based on competitive analysis and target market from strategy)

## 2. Target Audience Strategy
(Specific segments with acquisition tactics for each)
- Primary Segment:
- Secondary Segment:
- Acquisition Channels for Each:

## 3. Marketing Channel Strategy
(Prioritized channels based on budget, platform, and timeline)
- Phase 1 (Pre-Launch):
- Phase 2 (Launch):
- Phase 3 (Growth):

## 4. Content & Creative Strategy
(What content we'll create and why)

## 5. Go-to-Market Timeline
(Aligned with product development milestones from CTO)

## 6. Budget Allocation
(How to allocate marketing budget effectively)

## 7. Key Messaging & Copy
(Sample taglines, value propositions, ad copy)

## 8. Success Metrics & KPIs
(Specific metrics for this business model)

## 9. Launch Campaign Plan
(Detailed plan for launch week/month)

**IMPORTANT:** Reference specific points from both the Strategy and Technical analyses throughout your recommendations. Show how marketing connects business goals with technical capabilities!"
  else if Py.truthy strategy_context then
    "Based on the business strategy below, create a marketing strategy:

**BUSINESS STRATEGY:**
"
    +:+ Py.str strategy_context
    +:+ "

**STARTUP IDEA:**
"
    +:+ startup_idea
    +:+ "

Create comprehensive marketing strategy that aligns with the business goals above."
  else
    "Create a comprehensive marketing strategy for:

**STARTUP IDEA:**
"
    +:+ startup_idea
    +:+ "

Include brand positioning, target audience, channels, content strategy, and go-to-market plan.".

Definition create_marketing_strategy
    (self : t) (startup_idea : string)
    (strategy_context technical_context : option string) : M string :=
  let prompt := prompt startup_idea strategy_context technical_context in
  let messages :=
    [ SystemMessage (system_prompt self);
      HumanMessage prompt ] in
  response ← ChatGroq.invoke (llm self) messages;
  mret response.

(** The [HumanMessage] content built by [create_launch_campaign]. *)
Definition launch_prompt (startup_idea launch_date : string) : string :=
  "Create a detailed launch campaign plan for:

"
  +:+ startup_idea
  +:+ "

Launch date: "
  +:+ launch_date
  +:+ "

Include:
1. Pre-launch activities (4-6 weeks before)
2. Launch week strategy
3. Post-launch momentum tactics
4. Budget allocation
5. Key messaging".

(** [launch_date = None] is a call that leaves the argument out, so that the
    default ["in 3 months"] is taken. *)
Definition create_launch_campaign
    (self : t) (startup_idea : string) (launch_date : option string) : M string :=
  let launch_date := default "in 3 months" launch_date in
  let messages :=
    [ SystemMessage (system_prompt self);
      HumanMessage (launch_prompt startup_idea launch_date) ] in
  response ← ChatGroq.invoke (llm self) messages;
  mret response.

End MarketingAgent.

(** ** [langgraph.graph.StateGraph], as far as a chain of nodes uses it

    A node maps the state to the updated state.  [stream] yields the input
    state and then the state after every node, following the single edge out of
    each node until [END]; an exception raised by a node ends the stream after
    the states yielded so far.  [invoke] runs [stream] to its end and returns
    the last state, or raises what the stream raised. *)

Module StateGraph.

Definition END : string := "__end__".

Definition recursion_limit : nat := 25.

Record t : Type := mk {
  nodes : gmap string (gmap string string → M (gmap string string));
  entry_point : option string;
  edges : gmap string string
}.

Definition empty : t := {| nodes := ∅; entry_point := None; edges := ∅ |}.

Definition add_node (name : string)
    (action : gmap string string → M (gmap string string)) (g : t) : t :=
  {| nodes := <[name := action]> (nodes g);
     entry_point := entry_point g;
     edges := edges g |}.

Definition set_entry_point (name : string) (g : t) : t :=
  {| nodes := nodes g; entry_point := Some name; edges := edges g |}.

Definition add_edge (src dst : string) (g : t) : t :=
  {| nodes := nodes g;
     entry_point := entry_point g;
     edges := <[src := dst]> (edges g) |}.

Definition compile (g : t) : t := g.

(** The states yielded from node [name] on, and the exception that ended
    the walk, if any. *)
Fixpoint steps (limit : nat) (g : t) (name : string) (state : gmap string string)
    (log : list Call) : list Call * (list (gmap string string) * option Exn) :=
  if decide (name = END) then (log, ([], None)) else
  match limit with
  | O => (log, ([], Some GraphRecursionError))
  | S limit' =>
    match nodes g !! name with
    | None => (log, ([], Some (KeyError name)))
    | Some action =>
      match action state log with
      | (log', inl e) => (log', ([], Some e))
      | (log', inr state') =>
        let next := default END (edges g !! name) in
        let '(log'', (rest, r)) := steps limit' g next state' log' in
        (log'', (state' :: rest, r))
      end
    end
  end.

Definition stream (g : t) (input : gmap string string)
    (log : list Call) : list Call * (list (gmap string string) * option Exn) :=
  match entry_point g with
  | None => (log, ([], Some (ValueError "Graph must have an entrypoint")))
  | Some name =>
    let '(log', (rest, r)) := steps recursion_limit g name input log in
    (log', (input :: rest, r))
  end.

Definition invoke (g : t) (input : gmap string string) : M (gmap string string) :=
  λ log,
    match stream g input log with
    | (log', (_, Some e)) => (log', inl e)
    | (log', (values, None)) => (log', inr (List.last values input))
    end.

End StateGraph.

(** ** [workflows/collaboration.py] *)

(** [AgentState]: the keys of the shared state. *)
Abbreviation AgentState := (gmap string string).

Module StartupCoFounderWorkflow.

Record t : Type := mk {
  strategy_agent : StrategyAgent.t;
  technical_agent : TechnicalAgent.t;
  marketing_agent : MarketingAgent.t
}.

Definition _run_strategy_agent (self : t) (state : AgentState) : M AgentState :=
  startup_idea ← getitem state "startup_idea";
  strategy_analysis ←
    StrategyAgent.analyze_startup_idea (strategy_agent self) startup_idea;
  let state := <["strategy_analysis" := strategy_analysis]> state in
  let state := <["current_step" := "Strategy Complete"]> state in
  mret state.

Definition _run_technical_agent (self : t) (state : AgentState) : M AgentState :=
  startup_idea ← getitem state "startup_idea";
  strategy_context ← getitem state "strategy_analysis";
  technical_analysis ←
    TechnicalAgent.analyze_technical_requirements (technical_agent self)
      startup_idea
      (Some strategy_context);
  let state := <["technical_analysis" := technical_analysis]> state in
  let state := <["current_step" := "Technical Complete"]> state in
  mret state.

Definition _run_marketing_agent (self : t) (state : AgentState) : M AgentState :=
  startup_idea ← getitem state "startup_idea";
  strategy_context ← getitem state "strategy_analysis";
  technical_context ← getitem state "technical_analysis";
  marketing_strategy ←
    MarketingAgent.create_marketing_strategy (marketing_agent self)
      startup_idea
      (Some strategy_context)
      (Some technical_context);
  let state := <["marketing_strategy" := marketing_strategy]> state in
  let state := <["current_step" := "Marketing Complete"]> state in
  mret state.

(** The f-string of [_compile_final_report], over the four values it reads. *)
Definition final_report_text
    (startup_idea strategy_analysis technical_analysis marketing_strategy : string)
    : string :=
  "
# 🚀 COMPREHENSIVE STARTUP ANALYSIS
## Generated by AI Co-Founder Team

---

## 📋 STARTUP IDEA
"
    +:+ startup_idea
    +:+ "

---

## 🎯 BUSINESS STRATEGY ANALYSIS
### By Strategy Agent (CEO)

"
    +:+ strategy_analysis
    +:+ "

---

## 💻 TECHNICAL ARCHITECTURE & PLAN
### By Technical Agent (CTO)

"
    +:+ technical_analysis
    +:+ "

---

## 📢 MARKETING STRATEGY & GO-TO-MARKET
### By Marketing Agent (CMO)

"
    +:+ marketing_strategy
    +:+ "

---

## ✅ NEXT STEPS & ACTION ITEMS

Based on the collaborative analysis above, here are the immediate priorities:

1. **Week 1-2**: Validate assumptions with target customers (from Strategy)
2. **Week 3-4**: Set up technical infrastructure (from Technical)
3. **Week 4-6**: Begin pre-launch marketing activities (from Marketing)
4. **Month 2**: Start MVP development
5. **Month 3**: Beta testing and launch preparation

---

*This report was generated by a multi-agent AI system where each agent built upon the insights of previous agents to create a cohesive, unified strategy.*
".

Definition _compile_final_report (self : t) (state : AgentState) : M AgentState :=
  startup_idea ← getitem state "startup_idea";
  strategy_analysis ← getitem state "strategy_analysis";
  technical_analysis ← getitem state "technical_analysis";
  marketing_strategy ← getitem state "marketing_strategy";
  let final_report :=
    final_report_text startup_idea strategy_analysis technical_analysis
      marketing_strategy in
  let state := <["final_report" := final_report]> state in
  let state := <["current_step" := "Complete"]> state in
  mret state.

Definition _build_workflow (self : t) : StateGraph.t :=
  let workflow := StateGraph.empty in
  let workflow := StateGraph.add_node "strategy_agent" (_run_strategy_agent self) workflow in
  let workflow := StateGraph.add_node "technical_agent" (_run_technical_agent self) workflow in
  let workflow := StateGraph.add_node "marketing_agent" (_run_marketing_agent self) workflow in
  let workflow := StateGraph.add_node "compile_report" (_compile_final_report self) workflow in
  let workflow := StateGraph.set_entry_point "strategy_agent" workflow in
  let workflow := StateGraph.add_edge "strategy_agent" "technical_agent" workflow in
  let workflow := StateGraph.add_edge "technical_agent" "marketing_agent" workflow in
  let workflow := StateGraph.add_edge "marketing_agent" "compile_report" workflow in
  let workflow := StateGraph.add_edge "compile_report" StateGraph.END workflow in
  StateGraph.compile workflow.

(** [self.workflow], set by [__init__] to [self._build_workflow()]. *)
Definition workflow (self : t) : StateGraph.t := _build_workflow self.

Definition __init__ (groq : Groq) : t :=
  {| strategy_agent := StrategyAgent.__init__ groq;
     technical_agent := TechnicalAgent.__init__ groq;
     marketing_agent := MarketingAgent.__init__ groq |}.

(** The dictionary literal [initial_state] of [analyze_startup]. *)
Definition initial_state (startup_idea : string) : AgentState :=
  list_to_map
    [ ("startup_idea", startup_idea);
      ("strategy_analysis", "");
      ("technical_analysis", "");
      ("marketing_strategy", "");
      ("final_report", "");
      ("current_step", "Starting") ].

Definition analyze_startup (self : t) (startup_idea : string) : M AgentState :=
  let initial_state := initial_state startup_idea in
  final_state ← StateGraph.invoke (workflow self) initial_state;
  mret final_state.

End StartupCoFounderWorkflow.

(** ** Stubbed generators, for scenarios *)

(** Every call to a client gets the same canned answer. *)
Definition stub_groq (s t m : string) : Groq :=
  λ c _ _,
    match c with
    | StrategyLLM => inr s
    | TechnicalLLM => inr t
    | MarketingLLM => inr m
    end.

(** The strategy generator answers [s]; the technical generator raises [e]. *)
Definition technical_down_groq (s : string) (e : Exn) (m : string) : Groq :=
  λ c _ _,
    match c with
    | StrategyLLM => inr s
    | TechnicalLLM => inl e
    | MarketingLLM => inr m
    end.

(** ** The shared state after each node, as dictionary literals

    [s], [t] and [m] stand for the texts the three stages returned. *)

Definition after_strategy (idea s : string) : AgentState :=
  list_to_map
    [ ("startup_idea", idea);
      ("strategy_analysis", s);
      ("technical_analysis", "");
      ("marketing_strategy", "");
      ("final_report", "");
      ("current_step", "Strategy Complete") ].

Definition after_technical (idea s t : string) : AgentState :=
  list_to_map
    [ ("startup_idea", idea);
      ("strategy_analysis", s);
      ("technical_analysis", t);
      ("marketing_strategy", "");
      ("final_report", "");
      ("current_step", "Technical Complete") ].

Definition after_marketing (idea s t m : string) : AgentState :=
  list_to_map
    [ ("startup_idea", idea);
      ("strategy_analysis", s);
      ("technical_analysis", t);
      ("marketing_strategy", m);
      ("final_report", "");
      ("current_step", "Marketing Complete") ].

Definition after_compile (idea s t m : string) : AgentState :=
  list_to_map
    [ ("startup_idea", idea);
      ("strategy_analysis", s);
      ("technical_analysis", t);
      ("marketing_strategy", m);
      ("final_report", StartupCoFounderWorkflow.final_report_text idea s t m);
      ("current_step", "Complete") ].

(** The values a list of states holds under one key. *)
Definition column (key : string) (states : list AgentState) : list (option string) :=
  List.map (λ state : AgentState, state !! key) states.

(** A node that returns leaves [startup_idea] as it found it. *)
Definition keeps_idea (node : AgentState → M AgentState) : Prop :=
  ∀ (state state' : AgentState) (log log' : list Call),
    node state log = (log', inr state') →
    state' !! "startup_idea" = state !! "startup_idea".

(** ** Vocabulary for the properties of single nodes *)

(** The first key of [keys], in order, that [state] lacks. *)
Fixpoint first_missing (keys : list string) (state : AgentState) : option string :=
  match keys with
  | [] => None
  | key :: keys' =>
    match state !! key with
    | None => Some key
    | Some _ => first_missing keys' state
    end
  end.

(** A node that returns has written [label] to [current_step] and some text to
    [key], and nothing else. *)
Definition writes_only (node : AgentState → M AgentState) (key label : string) : Prop :=
  ∀ (state state' : AgentState) (log log' : list Call),
    node state log = (log', inr state') →
    state' !! "current_step" = Some label
    ∧ is_Some (state' !! key)
    ∧ ∀ other : string,
        other ≠ key → other ≠ "current_step" → state' !! other = state !! other.

(** A service that answers every call. *)
Definition always_answers (groq : Groq) : Prop :=
  ∀ (c : Client) (log : list Call) (messages : list Message),
    ∃ text : string, groq c log messages = inr text.

(** An agent method that makes exactly one call, to [llm], with the messages
    [system] and [instruction], and passes on what the generator answers or
    raises. *)
Definition calls_once (run : M string) (llm : ChatGroq.t) (system instruction : string)
    : Prop :=
  ∀ log : list Call,
    let messages := [SystemMessage system; HumanMessage instruction] in
    run log =
      ((log ++ [mkCall (ChatGroq.client llm) messages])%list,
       ChatGroq.reply llm log messages).

(** * Properties *)

(** ** Strings *)

Section StringFacts.

Implicit Types s p sub x y before after : string.
Implicit Types a c : ascii.

Lemma append_cons a s x : String a s +:+ x = String a (s +:+ x).
Proof. reflexivity. Qed.

Lemma append_nil_l s : "" +:+ s = s.
Proof. reflexivity. Qed.

Lemma append_nil_r s : s +:+ "" = s.
Proof. induction s as [|a s IH]; [reflexivity|]. now rewrite append_cons, IH. Qed.

Lemma append_assoc s x y : (s +:+ x) +:+ y = s +:+ (x +:+ y).
Proof.
  induction s as [|a s IH]; [reflexivity|].
  now rewrite !append_cons, IH.
Qed.

Lemma startswith_nil s : Py.startswith s "" = true.
Proof. now destruct s. Qed.

Lemma startswith_spec s p : Py.startswith s p = true ↔ ∃ rest, s = p +:+ rest.
Proof.
  revert s; induction p as [|a p IH]; intros s.
  - rewrite startswith_nil. split; [intros _; now exists s | reflexivity].
  - destruct s as [|b s]; simpl.
    + split; [discriminate | intros [rest H]; discriminate H].
    + destruct (Ascii.eqb_spec a b) as [->|Hne].
      * rewrite IH. split; intros [rest H]; exists rest.
        -- now rewrite append_cons, H.
        -- rewrite append_cons in H. now injection H.
      * split; [discriminate|]. intros [rest H].
        rewrite append_cons in H. injection H as Hab _. now destruct Hne.
Qed.

Lemma contains_b_unfold sub s :
  Py.contains_b sub s =
    Py.startswith s sub ||
    match s with EmptyString => false | String _ s' => Py.contains_b sub s' end.
Proof. now destruct s. Qed.

Lemma contains_nil s : Py.contains "" s.
Proof. exists "", s. reflexivity. Qed.

Lemma contains_cons a sub s : Py.contains sub s → Py.contains sub (String a s).
Proof. intros (before & after & ->). now exists (String a before), after. Qed.

Lemma contains_b_spec sub s : Py.contains_b sub s = true ↔ Py.contains sub s.
Proof.
  split.
  - induction s as [|a s IH]; rewrite contains_b_unfold, orb_true_iff.
    + intros [H|H]; [|discriminate].
      apply startswith_spec in H as [rest ->]. now exists "", rest.
    + intros [H|H].
      * apply startswith_spec in H as [rest ->]. now exists "", rest.
      * now apply contains_cons, IH.
  - intros (before & after & ->).
    induction before as [|a before IH].
    + rewrite append_nil_l, contains_b_unfold.
      assert (Py.startswith (sub +:+ after) sub = true) as ->; [|reflexivity].
      apply startswith_spec. now exists after.
    + rewrite append_cons, contains_b_unfold, IH. apply orb_true_r.
Qed.

Lemma not_contains_b sub s : Py.contains_b sub s = false ↔ ¬ Py.contains sub s.
Proof.
  rewrite <- contains_b_spec. destruct (Py.contains_b sub s); split; congruence.
Qed.

(** A string free of the byte [c] that starts a text [x +:+ c :: y] ends
    inside [x]. *)
Lemma prefix_before_sep c sub after x y :
  Py.has_byte c sub = false → sub +:+ after = x +:+ String c y →
  ∃ rest, x = sub +:+ rest.
Proof.
  revert x; induction sub as [|a sub IH]; intros x Hc H.
  - now exists x.
  - simpl in Hc. apply orb_false_iff in Hc as [Hac Hc].
    destruct x as [|b x]; rewrite !append_cons in H.
    + rewrite append_nil_l in H. injection H as -> _.
      now rewrite Ascii.eqb_refl in Hac.
    + injection H as -> H. destruct (IH x Hc H) as [rest ->].
      now exists rest.
Qed.

(** A string free of the byte [c] occurs in [x +:+ c :: y] only inside [x] or
    inside [y]. *)
Lemma contains_sep c sub x y :
  Py.has_byte c sub = false → Py.contains sub (x +:+ String c y) →
  Py.contains sub x ∨ Py.contains sub y.
Proof.
  intros Hc (before & after & H). revert x H.
  induction before as [|b before IH]; intros x H.
  - rewrite append_nil_l in H. symmetry in H.
    destruct (prefix_before_sep _ _ _ _ _ Hc H) as [rest ->].
    left. now exists "", rest.
  - destruct x as [|a x]; rewrite !append_cons in H.
    + rewrite append_nil_l in H. injection H as _ ->.
      right. now exists before, after.
    + injection H as _ H. destruct (IH x H) as [Hx|Hy]; [left|now right].
      now apply contains_cons.
Qed.

(** The same for a text between two separators. *)
Lemma contains_between c sub x s y :
  Py.has_byte c sub = false →
  Py.contains sub (x +:+ String c (s +:+ String c y)) →
  Py.contains sub x ∨ Py.contains sub s ∨ Py.contains sub y.
Proof.
  intros Hc H. apply contains_sep in H as [H|H]; [now left|right|assumption].
  now apply contains_sep in H.
Qed.

Lemma endswith_b_unfold s p :
  Py.endswith_b s p =
    String.eqb s p ||
    match s with EmptyString => false | String _ s' => Py.endswith_b s' p end.
Proof. now destruct s. Qed.

Lemma endswith_b_spec s p : Py.endswith_b s p = true ↔ Py.endswith s p.
Proof.
  split.
  - induction s as [|a s IH]; rewrite endswith_b_unfold, orb_true_iff.
    + intros [H|H]; [|discriminate]. apply String.eqb_eq in H as <-. now exists "".
    + intros [H|H].
      * apply String.eqb_eq in H as <-. now exists "".
      * destruct (IH H) as [before ->]. now exists (String a before).
  - intros [before ->]. induction before as [|a before IH].
    + now rewrite append_nil_l, endswith_b_unfold, String.eqb_refl.
    + rewrite append_cons, endswith_b_unfold, IH. apply orb_true_r.
Qed.

(** A string free of the line feed occurs in a text whose slot is set off by
    line feeds only inside the text before the slot, inside the slot, or
    inside the text after it. *)
Lemma contains_in_slot sub pre x post :
  Py.has_byte "010" sub = false →
  Py.endswith pre (String "010" "") →
  Py.startswith post (String "010" "") = true →
  Py.contains sub (pre +:+ x +:+ post) →
  Py.contains sub pre ∨ Py.contains sub x ∨ Py.contains sub post.
Proof.
  intros Hc [pre' ->] Hpost H.
  apply startswith_spec in Hpost as [post' ->].
  rewrite append_assoc in H.
  change (pre' +:+ String "010" "" +:+ x +:+ String "010" "" +:+ post')
    with (pre' +:+ String "010" (x +:+ String "010" post')) in H.
  apply contains_between in H as [H|[H|H]]; [left|now right; left|right; right|assumption].
  - destruct H as (before & after & ->). exists before, (after +:+ String "010" "").
    now rewrite !append_assoc.
  - now apply contains_cons.
Qed.

Lemma contains_middle before sub after : Py.contains sub (before +:+ sub +:+ after).
Proof. now exists before, after. Qed.

End StringFacts.

(** ** The monad and the graph walk *)

Import StartupCoFounderWorkflow.

Lemma getitem_lookup (d : AgentState) (k v : string) (log : list Call) :
  d !! k = Some v → getitem d k log = (log, inr v).
Proof. intros H. unfold getitem. now rewrite H. Qed.

Lemma getitem_missing (d : AgentState) (k : string) (log : list Call) :
  d !! k = None → getitem d k log = (log, inl (KeyError k)).
Proof. intros H. unfold getitem. now rewrite H. Qed.

Lemma bind_eq {A B : Type} (m : M A) (f : A → M B) (log : list Call) :
  (m ≫= f) log =
    match m log with
    | (log', inl e) => (log', inl e)
    | (log', inr x) => f x log'
    end.
Proof. reflexivity. Qed.

Lemma steps_END limit g state log :
  StateGraph.steps limit g StateGraph.END state log = (log, ([], None)).
Proof. now destruct limit. Qed.

Lemma steps_node limit g name action state log :
  name ≠ StateGraph.END →
  StateGraph.nodes g !! name = Some action →
  StateGraph.steps (S limit) g name state log =
    match action state log with
    | (log', inl e) => (log', ([], Some e))
    | (log', inr state') =>
      let '(log'', (rest, r)) :=
        StateGraph.steps limit g (default StateGraph.END (StateGraph.edges g !! name))
          state' log' in
      (log'', (state' :: rest, r))
    end.
Proof.
  intros Hne Hnode. simpl.
  destruct (decide (name = StateGraph.END)) as [|_]; [contradiction|].
  now rewrite Hnode.
Qed.

(** ** The four nodes *)

Section Nodes.

Variable self : StartupCoFounderWorkflow.t.
Implicit Types state : AgentState.
Implicit Types idea s t m : string.
Implicit Types log : list Call.

Lemma run_strategy_agent_eq state idea log :
  state !! "startup_idea" = Some idea →
  _run_strategy_agent self state log =
    match StrategyAgent.analyze_startup_idea (strategy_agent self) idea log with
    | (log', inl e) => (log', inl e)
    | (log', inr s) =>
      (log', inr (<["current_step" := "Strategy Complete"]>
                    (<["strategy_analysis" := s]> state)))
    end.
Proof.
  intros Hidea. unfold _run_strategy_agent.
  rewrite bind_eq, (getitem_lookup _ _ _ _ Hidea), bind_eq.
  now destruct (StrategyAgent.analyze_startup_idea _ _ _) as [log' [e|s]].
Qed.

Lemma run_technical_agent_eq state idea s log :
  state !! "startup_idea" = Some idea →
  state !! "strategy_analysis" = Some s →
  _run_technical_agent self state log =
    match TechnicalAgent.analyze_technical_requirements (technical_agent self)
            idea (Some s) log with
    | (log', inl e) => (log', inl e)
    | (log', inr t) =>
      (log', inr (<["current_step" := "Technical Complete"]>
                    (<["technical_analysis" := t]> state)))
    end.
Proof.
  intros Hidea Hs. unfold _run_technical_agent.
  rewrite bind_eq, (getitem_lookup _ _ _ _ Hidea).
  rewrite bind_eq, (getitem_lookup _ _ _ _ Hs), bind_eq.
  now destruct (TechnicalAgent.analyze_technical_requirements _ _ _ _) as [log' [e|t]].
Qed.

Lemma run_marketing_agent_eq state idea s t log :
  state !! "startup_idea" = Some idea →
  state !! "strategy_analysis" = Some s →
  state !! "technical_analysis" = Some t →
  _run_marketing_agent self state log =
    match MarketingAgent.create_marketing_strategy (marketing_agent self)
            idea (Some s) (Some t) log with
    | (log', inl e) => (log', inl e)
    | (log', inr m) =>
      (log', inr (<["current_step" := "Marketing Complete"]>
                    (<["marketing_strategy" := m]> state)))
    end.
Proof.
  intros Hidea Hs Ht. unfold _run_marketing_agent.
  rewrite bind_eq, (getitem_lookup _ _ _ _ Hidea).
  rewrite bind_eq, (getitem_lookup _ _ _ _ Hs).
  rewrite bind_eq, (getitem_lookup _ _ _ _ Ht), bind_eq.
  now destruct (MarketingAgent.create_marketing_strategy _ _ _ _ _) as [log' [e|m]].
Qed.

Lemma compile_final_report_eq state idea s t m log :
  state !! "startup_idea" = Some idea →
  state !! "strategy_analysis" = Some s →
  state !! "technical_analysis" = Some t →
  state !! "marketing_strategy" = Some m →
  _compile_final_report self state log =
    (log, inr (<["current_step" := "Complete"]>
                 (<["final_report" := final_report_text idea s t m]> state))).
Proof.
  intros Hidea Hs Ht Hm. unfold _compile_final_report.
  rewrite bind_eq, (getitem_lookup _ _ _ _ Hidea).
  rewrite bind_eq, (getitem_lookup _ _ _ _ Hs).
  rewrite bind_eq, (getitem_lookup _ _ _ _ Ht).
  rewrite bind_eq, (getitem_lookup _ _ _ _ Hm).
  reflexivity.
Qed.

(** ** The whole run *)

Lemma stream_workflow idea log :
  StateGraph.stream (workflow self) (initial_state idea) log =
    match StrategyAgent.analyze_startup_idea (strategy_agent self) idea log with
    | (log1, inl e) => (log1, ([initial_state idea], Some e))
    | (log1, inr s) =>
      match TechnicalAgent.analyze_technical_requirements (technical_agent self)
              idea (Some s) log1 with
      | (log2, inl e) =>
        (log2, ([initial_state idea; after_strategy idea s], Some e))
      | (log2, inr t) =>
        match MarketingAgent.create_marketing_strategy (marketing_agent self)
                idea (Some s) (Some t) log2 with
        | (log3, inl e) =>
          (log3, ([initial_state idea; after_strategy idea s;
                   after_technical idea s t], Some e))
        | (log3, inr m) =>
          (log3, ([initial_state idea; after_strategy idea s;
                   after_technical idea s t; after_marketing idea s t m;
                   after_compile idea s t m], None))
        end
      end
    end.
Proof.
  unfold StateGraph.stream.
  change (StateGraph.entry_point (workflow self)) with (Some "strategy_agent").
  change StateGraph.recursion_limit with (S (S (S (S 21)))).
  cbv beta iota.
  rewrite (steps_node _ _ "strategy_agent" (_run_strategy_agent self));
    [|discriminate|reflexivity].
  rewrite (run_strategy_agent_eq _ idea) by reflexivity.
  destruct (StrategyAgent.analyze_startup_idea _ _ _) as [log1 [e|s]]; [reflexivity|].
  change (default StateGraph.END (StateGraph.edges (workflow self) !! "strategy_agent"))
    with "technical_agent".
  rewrite (steps_node _ _ "technical_agent" (_run_technical_agent self));
    [|discriminate|reflexivity].
  rewrite (run_technical_agent_eq _ idea s) by reflexivity.
  destruct (TechnicalAgent.analyze_technical_requirements _ _ _ _) as [log2 [e|t]];
    [reflexivity|].
  change (default StateGraph.END (StateGraph.edges (workflow self) !! "technical_agent"))
    with "marketing_agent".
  rewrite (steps_node _ _ "marketing_agent" (_run_marketing_agent self));
    [|discriminate|reflexivity].
  rewrite (run_marketing_agent_eq _ idea s t) by reflexivity.
  destruct (MarketingAgent.create_marketing_strategy _ _ _ _ _) as [log3 [e|m]];
    [reflexivity|].
  change (default StateGraph.END (StateGraph.edges (workflow self) !! "marketing_agent"))
    with "compile_report".
  rewrite (steps_node _ _ "compile_report" (_compile_final_report self));
    [|discriminate|reflexivity].
  rewrite (compile_final_report_eq _ idea s t m) by reflexivity.
  change (default StateGraph.END (StateGraph.edges (workflow self) !! "compile_report"))
    with StateGraph.END.
  rewrite steps_END. reflexivity.
Qed.

End Nodes.

Lemma analyze_startup_eq (self : StartupCoFounderWorkflow.t) (idea : string)
    (log : list Call) :
  analyze_startup self idea log =
    match StrategyAgent.analyze_startup_idea (strategy_agent self) idea log with
    | (log1, inl e) => (log1, inl e)
    | (log1, inr s) =>
      match TechnicalAgent.analyze_technical_requirements (technical_agent self)
              idea (Some s) log1 with
      | (log2, inl e) => (log2, inl e)
      | (log2, inr t) =>
        match MarketingAgent.create_marketing_strategy (marketing_agent self)
                idea (Some s) (Some t) log2 with
        | (log3, inl e) => (log3, inl e)
        | (log3, inr m) => (log3, inr (after_compile idea s t m))
        end
      end
    end.
Proof.
  unfold analyze_startup. rewrite bind_eq. unfold StateGraph.invoke.
  rewrite stream_workflow.
  destruct (StrategyAgent.analyze_startup_idea _ _ _) as [log1 [e|s]]; [reflexivity|].
  destruct (TechnicalAgent.analyze_technical_requirements _ _ _ _) as [log2 [e|t]];
    [reflexivity|].
  destruct (MarketingAgent.create_marketing_strategy _ _ _ _ _) as [log3 [e|m]];
    reflexivity.
Qed.

(** ** What a stage sends to its generator *)

Lemma analyze_startup_idea_eq (agent : StrategyAgent.t) (idea : string)
    (log : list Call) :
  let messages :=
    [ SystemMessage (StrategyAgent.system_prompt agent);
      HumanMessage (StrategyAgent.prompt idea) ] in
  StrategyAgent.analyze_startup_idea agent idea log =
    ((log ++ [mkCall (ChatGroq.client (StrategyAgent.llm agent)) messages])%list,
     ChatGroq.reply (StrategyAgent.llm agent) log messages).
Proof.
  intros messages. unfold StrategyAgent.analyze_startup_idea.
  rewrite bind_eq. unfold ChatGroq.invoke. fold messages.
  now destruct (ChatGroq.reply _ _ _).
Qed.

Lemma analyze_technical_requirements_eq (agent : TechnicalAgent.t) (idea : string)
    (context : option string) (log : list Call) :
  let messages :=
    [ SystemMessage (TechnicalAgent.system_prompt agent);
      HumanMessage (TechnicalAgent.prompt idea context) ] in
  TechnicalAgent.analyze_technical_requirements agent idea context log =
    ((log ++ [mkCall (ChatGroq.client (TechnicalAgent.llm agent)) messages])%list,
     ChatGroq.reply (TechnicalAgent.llm agent) log messages).
Proof.
  intros messages. unfold TechnicalAgent.analyze_technical_requirements.
  rewrite bind_eq. unfold ChatGroq.invoke. fold messages.
  now destruct (ChatGroq.reply _ _ _).
Qed.

Lemma create_marketing_strategy_eq (agent : MarketingAgent.t) (idea : string)
    (strategy technical : option string) (log : list Call) :
  let messages :=
    [ SystemMessage (MarketingAgent.system_prompt agent);
      HumanMessage (MarketingAgent.prompt idea strategy technical) ] in
  MarketingAgent.create_marketing_strategy agent idea strategy technical log =
    ((log ++ [mkCall (ChatGroq.client (MarketingAgent.llm agent)) messages])%list,
     ChatGroq.reply (MarketingAgent.llm agent) log messages).
Proof.
  intros messages. unfold MarketingAgent.create_marketing_strategy.
  rewrite bind_eq. unfold ChatGroq.invoke. fold messages.
  now destruct (ChatGroq.reply _ _ _).
Qed.

(** ** The pipeline contract *)

(** C4.  A run of [analyze_startup] is the three stage calls in sequence: the
    Technical stage is called with the idea and, as its only context, the text
    the Strategy stage returned; the Marketing stage is called with the idea,
    the Strategy text and the Technical text, in that order.  On a successful
    run the generators were therefore called three times, with the instructions
    built from exactly these arguments. *)
Theorem stages_receive_prior_outputs
    (self : StartupCoFounderWorkflow.t) (idea : string) (log : list Call) :
  analyze_startup self idea log =
    (s ← StrategyAgent.analyze_startup_idea (strategy_agent self) idea;
     t ← TechnicalAgent.analyze_technical_requirements (technical_agent self)
           idea (Some s);
     m ← MarketingAgent.create_marketing_strategy (marketing_agent self)
           idea (Some s) (Some t);
     mret (after_compile idea s t m)) log
  ∧ ∀ (log' : list Call) (result : AgentState),
      analyze_startup self idea log = (log', inr result) →
      ∃ s t m : string,
        result !! "strategy_analysis" = Some s ∧
        result !! "technical_analysis" = Some t ∧
        result !! "marketing_strategy" = Some m ∧
        log' =
          (log ++
           [ mkCall (ChatGroq.client (StrategyAgent.llm (strategy_agent self)))
               [ SystemMessage (StrategyAgent.system_prompt (strategy_agent self));
                 HumanMessage (StrategyAgent.prompt idea) ];
             mkCall (ChatGroq.client (TechnicalAgent.llm (technical_agent self)))
               [ SystemMessage (TechnicalAgent.system_prompt (technical_agent self));
                 HumanMessage (TechnicalAgent.prompt idea (Some s)) ];
             mkCall (ChatGroq.client (MarketingAgent.llm (marketing_agent self)))
               [ SystemMessage (MarketingAgent.system_prompt (marketing_agent self));
                 HumanMessage (MarketingAgent.prompt idea (Some s) (Some t)) ] ])%list.
Proof.
  split.
  - rewrite analyze_startup_eq, bind_eq.
    destruct (StrategyAgent.analyze_startup_idea _ _ _) as [log1 [e|s]]; [reflexivity|].
    rewrite bind_eq.
    destruct (TechnicalAgent.analyze_technical_requirements _ _ _ _) as [log2 [e|t]];
      [reflexivity|].
    rewrite bind_eq.
    now destruct (MarketingAgent.create_marketing_strategy _ _ _ _ _) as [log3 [e|m]].
  - intros log' result. rewrite analyze_startup_eq.
    rewrite analyze_startup_idea_eq.
    destruct (ChatGroq.reply (StrategyAgent.llm _) _ _) as [e|s]; [discriminate|].
    rewrite analyze_technical_requirements_eq.
    destruct (ChatGroq.reply (TechnicalAgent.llm _) _ _) as [e|t]; [discriminate|].
    rewrite create_marketing_strategy_eq.
    destruct (ChatGroq.reply (MarketingAgent.llm _) _ _) as [e|m]; [discriminate|].
    intros [= <- <-]. exists s, t, m.
    repeat split; try reflexivity.
    now rewrite <- !app_assoc.
Qed.

(** C4, at a run with stubbed generators. *)
Lemma stages_receive_prior_outputs_witness :
  ∃ log' : list Call,
    analyze_startup (StartupCoFounderWorkflow.__init__ (stub_groq "S" "T" "M")) "X" [] =
      (log', inr (after_compile "X" "S" "T" "M")).
Proof.
  eexists.
  rewrite (proj1 (stages_receive_prior_outputs
                    (StartupCoFounderWorkflow.__init__ (stub_groq "S" "T" "M")) "X" [])).
  reflexivity.
Defined.

(** C1 (as the code has it).  A successful [analyze_startup] returns the final
    shared state: a dictionary with exactly six keys, the four result keys
    [strategy_analysis], [technical_analysis], [marketing_strategy] and
    [final_report] together with [startup_idea], which still holds the idea,
    and [current_step], which holds ["Complete"]. *)
Theorem analyze_startup_result_keys
    (self : StartupCoFounderWorkflow.t) (idea : string)
    (log log' : list Call) (result : AgentState) :
  analyze_startup self idea log = (log', inr result) →
  dom result =
    ({[ "startup_idea"; "strategy_analysis"; "technical_analysis";
        "marketing_strategy"; "final_report"; "current_step" ]} : gset string)
  ∧ result !! "startup_idea" = Some idea
  ∧ result !! "current_step" = Some "Complete"
  ∧ ∃ s t m : string,
      result !! "strategy_analysis" = Some s ∧
      result !! "technical_analysis" = Some t ∧
      result !! "marketing_strategy" = Some m ∧
      result !! "final_report" = Some (final_report_text idea s t m).
Proof.
  rewrite analyze_startup_eq.
  destruct (StrategyAgent.analyze_startup_idea _ _ _) as [log1 [e|s]]; [discriminate|].
  destruct (TechnicalAgent.analyze_technical_requirements _ _ _ _) as [log2 [e|t]];
    [discriminate|].
  destruct (MarketingAgent.create_marketing_strategy _ _ _ _ _) as [log3 [e|m]];
    [discriminate|].
  intros [= _ <-]. repeat split.
  exists s, t, m. repeat split.
Qed.

(** C1, at a run with stubbed generators. *)
Lemma analyze_startup_result_keys_witness :
  ∃ (log' : list Call) (result : AgentState),
    analyze_startup (StartupCoFounderWorkflow.__init__ (stub_groq "S" "T" "M")) "X" [] =
      (log', inr result)
    ∧ dom result =
        ({[ "startup_idea"; "strategy_analysis"; "technical_analysis";
            "marketing_strategy"; "final_report"; "current_step" ]} : gset string).
Proof.
  pose (self := StartupCoFounderWorkflow.__init__ (stub_groq "S" "T" "M")).
  assert (∃ log', analyze_startup self "X" [] =
                    (log', inr (after_compile "X" "S" "T" "M"))) as [log' Hrun].
  { eexists. rewrite analyze_startup_eq. reflexivity. }
  exists log', (after_compile "X" "S" "T" "M"). split; [exact Hrun|].
  exact (proj1 (analyze_startup_result_keys self "X" [] log' _ Hrun)).
Defined.

(** C1 as stated fails: the result of a successful run is not a dictionary of
    the four result keys only; it also has [startup_idea] and [current_step]. *)
Lemma analyze_startup_four_keys_counterexample :
  ∃ (log' : list Call) (result : AgentState),
    analyze_startup (StartupCoFounderWorkflow.__init__ (stub_groq "S" "T" "M")) "X" [] =
      (log', inr result)
    ∧ dom result ≠
        ({[ "strategy_analysis"; "technical_analysis";
            "marketing_strategy"; "final_report" ]} : gset string)
    ∧ result !! "startup_idea" = Some "X"
    ∧ result !! "current_step" = Some "Complete".
Proof.
  eexists _, _. split; [rewrite analyze_startup_eq; reflexivity|].
  split; [|split; reflexivity].
  intros Heq.
  assert ("startup_idea" ∈ dom (after_compile "X" "S" "T" "M")) as Hin
    by (apply elem_of_dom; now exists "X").
  rewrite Heq in Hin. set_solver.
Qed.

(** C3.  When the strategy generator has answered [s] and the call made by
    the Technical stage raises [e], the run ends with that same exception: the
    log grew by the Strategy call and the failed Technical call only, so the
    Marketing generator was not called, and the only states the walk yielded
    are the initial one and the one after the Strategy stage, in which
    [marketing_strategy] and [final_report] are still empty. *)
Theorem technical_failure_aborts_run
    (groq : Groq) (idea s : string) (e : Exn) (log : list Call) :
  let self := StartupCoFounderWorkflow.__init__ groq in
  let call1 :=
    mkCall StrategyLLM
      [ SystemMessage (StrategyAgent.system_prompt (strategy_agent self));
        HumanMessage (StrategyAgent.prompt idea) ] in
  let call2 :=
    mkCall TechnicalLLM
      [ SystemMessage (TechnicalAgent.system_prompt (technical_agent self));
        HumanMessage (TechnicalAgent.prompt idea (Some s)) ] in
  groq StrategyLLM log (sent call1) = inr s →
  groq TechnicalLLM (log ++ [call1])%list (sent call2) = inl e →
  analyze_startup self idea log = ((log ++ [call1; call2])%list, inl e)
  ∧ calls_to MarketingLLM (log ++ [call1; call2]) = calls_to MarketingLLM log
  ∧ StateGraph.stream (workflow self) (initial_state idea) log =
      ((log ++ [call1; call2])%list,
       ([initial_state idea; after_strategy idea s], Some e))
  ∧ after_strategy idea s !! "marketing_strategy" = Some ""
  ∧ after_strategy idea s !! "final_report" = Some "".
Proof.
  intros self call1 call2 H1 H2.
  assert (StrategyAgent.analyze_startup_idea (strategy_agent self) idea log =
            ((log ++ [call1])%list, inr s)) as Hs.
  { rewrite analyze_startup_idea_eq. simpl. unfold call1 in H1. simpl in H1.
    now rewrite H1. }
  assert (TechnicalAgent.analyze_technical_requirements (technical_agent self)
            idea (Some s) (log ++ [call1])%list =
            ((log ++ [call1; call2])%list, inl e)) as Ht.
  { rewrite analyze_technical_requirements_eq. simpl.
    unfold call2 in H2. simpl in H2. rewrite H2.
    now rewrite <- app_assoc. }
  split; [|split; [|split; [|split; reflexivity]]].
  - now rewrite analyze_startup_eq, Hs, Ht.
  - unfold calls_to. rewrite List.filter_app. simpl. apply app_nil_r.
  - now rewrite stream_workflow, Hs, Ht.
Qed.

(** C3, at a service whose technical generator is down. *)
Lemma technical_failure_aborts_run_witness :
  ∃ log' : list Call,
    analyze_startup
      (StartupCoFounderWorkflow.__init__
         (technical_down_groq "S" (APIError "timeout") "M")) "X" [] =
      (log', inl (APIError "timeout"))
    ∧ length log' = 2
    ∧ calls_to MarketingLLM log' = [].
Proof.
  eexists. split; [|split].
  - exact (proj1 (technical_failure_aborts_run
                    (technical_down_groq "S" (APIError "timeout") "M")
                    "X" "S" (APIError "timeout") [] eq_refl eq_refl)).
  - reflexivity.
  - reflexivity.
Defined.

(** ** The shared state along a run *)

Section Frame.

Variable self : StartupCoFounderWorkflow.t.

(** Splits a goal on whether [state] has the key that is read next. *)
Ltac read_key state key :=
  let v := fresh "v" in
  let H := fresh "H" in
  rewrite bind_eq;
  destruct (state !! key) as [v|] eqn:H;
  [ rewrite (getitem_lookup _ _ _ _ H)
  | rewrite (getitem_missing _ _ _ H); discriminate ].

Lemma run_strategy_agent_keeps_idea : keeps_idea (_run_strategy_agent self).
Proof.
  intros state state' log log'. unfold _run_strategy_agent.
  read_key state "startup_idea". rewrite bind_eq.
  destruct (StrategyAgent.analyze_startup_idea _ _ _) as [log1 [e|s]]; [discriminate|].
  intros [= _ <-]. now rewrite !lookup_insert_ne by discriminate.
Qed.

Lemma run_technical_agent_keeps_idea : keeps_idea (_run_technical_agent self).
Proof.
  intros state state' log log'. unfold _run_technical_agent.
  read_key state "startup_idea". read_key state "strategy_analysis". rewrite bind_eq.
  destruct (TechnicalAgent.analyze_technical_requirements _ _ _ _) as [log1 [e|t]];
    [discriminate|].
  intros [= _ <-]. now rewrite !lookup_insert_ne by discriminate.
Qed.

Lemma run_marketing_agent_keeps_idea : keeps_idea (_run_marketing_agent self).
Proof.
  intros state state' log log'. unfold _run_marketing_agent.
  read_key state "startup_idea". read_key state "strategy_analysis".
  read_key state "technical_analysis". rewrite bind_eq.
  destruct (MarketingAgent.create_marketing_strategy _ _ _ _ _) as [log1 [e|m]];
    [discriminate|].
  intros [= _ <-]. now rewrite !lookup_insert_ne by discriminate.
Qed.

Lemma compile_final_report_keeps_idea : keeps_idea (_compile_final_report self).
Proof.
  intros state state' log log'. unfold _compile_final_report.
  read_key state "startup_idea". read_key state "strategy_analysis".
  read_key state "technical_analysis". read_key state "marketing_strategy".
  intros [= _ <-]. now rewrite !lookup_insert_ne by discriminate.
Qed.

End Frame.

(** C9.  None of the four nodes writes [startup_idea]: a node that returns
    leaves that entry as it found it.  So every state a run yields, whether the
    run completes or is cut short by an exception, holds the idea the caller
    supplied, and so does the dictionary a successful [analyze_startup]
    returns. *)
Theorem startup_idea_frame (self : StartupCoFounderWorkflow.t) :
  Forall keeps_idea
    [ _run_strategy_agent self; _run_technical_agent self;
      _run_marketing_agent self; _compile_final_report self ]
  ∧ (∀ (idea : string) (log : list Call),
       Forall (λ state : AgentState, state !! "startup_idea" = Some idea)
         (StateGraph.stream (workflow self) (initial_state idea) log).2.1)
  ∧ (∀ (idea : string) (log log' : list Call) (result : AgentState),
       analyze_startup self idea log = (log', inr result) →
       result !! "startup_idea" = Some idea).
Proof.
  split; [|split].
  - repeat constructor.
    + apply run_strategy_agent_keeps_idea.
    + apply run_technical_agent_keeps_idea.
    + apply run_marketing_agent_keeps_idea.
    + apply compile_final_report_keeps_idea.
  - intros idea log. rewrite stream_workflow.
    destruct (StrategyAgent.analyze_startup_idea _ _ _) as [log1 [e|s]];
      [repeat constructor|].
    destruct (TechnicalAgent.analyze_technical_requirements _ _ _ _) as [log2 [e|t]];
      [repeat constructor|].
    destruct (MarketingAgent.create_marketing_strategy _ _ _ _ _) as [log3 [e|m]];
      repeat constructor.
  - intros idea log log' result. rewrite analyze_startup_eq.
    destruct (StrategyAgent.analyze_startup_idea _ _ _) as [log1 [e|s]]; [discriminate|].
    destruct (TechnicalAgent.analyze_technical_requirements _ _ _ _) as [log2 [e|t]];
      [discriminate|].
    destruct (MarketingAgent.create_marketing_strategy _ _ _ _ _) as [log3 [e|m]];
      [discriminate|].
    now intros [= _ <-].
Qed.

(** C9, at a run with stubbed generators. *)
Lemma startup_idea_frame_witness :
  after_compile "X" "S" "T" "M" !! "startup_idea" = Some "X".
Proof.
  pose (self := StartupCoFounderWorkflow.__init__ (stub_groq "S" "T" "M")).
  assert (∃ log', analyze_startup self "X" [] =
                    (log', inr (after_compile "X" "S" "T" "M"))) as [log' Hrun].
  { eexists. rewrite analyze_startup_eq. reflexivity. }
  exact (proj2 (proj2 (startup_idea_frame self)) "X" [] log' _ Hrun).
Defined.

(** C8.  Along every run the states yielded are an initial part of a table in
    which each result entry is the empty string up to the state its stage
    produces and keeps the value written there in every later state:
    [strategy_analysis] is written by the first node, [technical_analysis] by
    the second, [marketing_strategy] by the third and [final_report] by the
    fourth.  A run that raises stops early in the table; a run that does not
    goes through all five states. *)
Theorem shared_state_write_once
    (self : StartupCoFounderWorkflow.t) (idea : string) (log : list Call) :
  ∃ s t m : string,
    let run := StateGraph.stream (workflow self) (initial_state idea) log in
    let states := run.2.1 in
    column "strategy_analysis" states
      `prefix_of` [Some ""; Some s; Some s; Some s; Some s]
    ∧ column "technical_analysis" states
      `prefix_of` [Some ""; Some ""; Some t; Some t; Some t]
    ∧ column "marketing_strategy" states
      `prefix_of` [Some ""; Some ""; Some ""; Some m; Some m]
    ∧ column "final_report" states
      `prefix_of` [Some ""; Some ""; Some ""; Some "";
                   Some (final_report_text idea s t m)]
    ∧ (1 ≤ length states)%nat
    ∧ (run.2.2 = None ↔ length states = 5).
Proof.
  rewrite stream_workflow.
  destruct (StrategyAgent.analyze_startup_idea _ _ _) as [log1 [e|s]].
  { exists "", "", "". cbn.
    repeat split; try (by eexists); try lia; discriminate. }
  destruct (TechnicalAgent.analyze_technical_requirements _ _ _ _) as [log2 [e|t]].
  { exists s, "", "". cbn.
    repeat split; try (by eexists); try lia; discriminate. }
  destruct (MarketingAgent.create_marketing_strategy _ _ _ _ _) as [log3 [e|m]].
  { exists s, t, "". cbn.
    repeat split; try (by eexists); try lia; discriminate. }
  exists s, t, m. cbn.
  repeat split; try (by eexists); lia.
Qed.

(** ** The compiled report *)

(** C6.  [_compile_final_report] calls no generator and depends on nothing
    but the four entries it reads: run on any two workflows, at any two logs,
    on states that agree on the idea and the three analyses, it leaves each
    log as it was and writes the same [final_report]; run twice on the same
    state it returns the same state. *)
Theorem compile_final_report_deterministic
    (self1 self2 : StartupCoFounderWorkflow.t) (state1 state2 : AgentState)
    (log1 log2 : list Call) (idea A B C : string) :
  state1 !! "startup_idea" = Some idea → state2 !! "startup_idea" = Some idea →
  state1 !! "strategy_analysis" = Some A → state2 !! "strategy_analysis" = Some A →
  state1 !! "technical_analysis" = Some B → state2 !! "technical_analysis" = Some B →
  state1 !! "marketing_strategy" = Some C → state2 !! "marketing_strategy" = Some C →
  ∃ (state1' state2' : AgentState) (report : string),
    _compile_final_report self1 state1 log1 = (log1, inr state1')
    ∧ _compile_final_report self2 state2 log2 = (log2, inr state2')
    ∧ state1' !! "final_report" = Some report
    ∧ state2' !! "final_report" = Some report
    ∧ (state1 = state2 → state1' = state2').
Proof.
  intros Hi1 Hi2 HA1 HA2 HB1 HB2 HC1 HC2.
  rewrite (compile_final_report_eq self1 state1 idea A B C) by assumption.
  rewrite (compile_final_report_eq self2 state2 idea A B C) by assumption.
  eexists _, _, _. repeat split.
  - rewrite lookup_insert_ne by discriminate. apply lookup_insert_eq.
  - rewrite lookup_insert_ne by discriminate. apply lookup_insert_eq.
  - now intros ->.
Qed.

(** C6, at the state a stubbed run reaches before the report is compiled. *)
Lemma compile_final_report_deterministic_witness :
  ∃ state' : AgentState,
    _compile_final_report (StartupCoFounderWorkflow.__init__ (stub_groq "S" "T" "M"))
      (after_marketing "X" "S" "T" "M") [] = ([], inr state')
    ∧ _compile_final_report
        (StartupCoFounderWorkflow.__init__ (technical_down_groq "S" GraphRecursionError "M"))
        (after_marketing "X" "S" "T" "M")
        [mkCall MarketingLLM []] = ([mkCall MarketingLLM []], inr state').
Proof.
  destruct (compile_final_report_deterministic
              (StartupCoFounderWorkflow.__init__ (stub_groq "S" "T" "M"))
              (StartupCoFounderWorkflow.__init__
                 (technical_down_groq "S" GraphRecursionError "M"))
              (after_marketing "X" "S" "T" "M") (after_marketing "X" "S" "T" "M")
              [] [mkCall MarketingLLM []] "X" "S" "T" "M"
              eq_refl eq_refl eq_refl eq_refl eq_refl eq_refl eq_refl eq_refl)
    as (state1' & state2' & report & H1 & H2 & _ & _ & Hsame).
  exists state1'. split; [exact H1|].
  rewrite (Hsame eq_refl). exact H2.
Defined.

(** C2.  There are five fixed texts, the same for every input, such that the
    report compiled from [idea], [A], [B] and [C] is the first text, then
    [idea], then the second, then [A], then the third, then [B], then the
    fourth, then [C], then the fifth.  The first four end in the section titles
    of the idea, the strategy, the technical and the marketing section, so each
    value stands right under its own title; the fifth holds the next-steps
    title and the five numbered items.  In particular the report contains each
    of the four values as a contiguous part. *)
Theorem compile_final_report_layout :
  ∃ h_idea h_strategy h_technical h_marketing next_steps : string,
    Py.endswith h_idea "## 📋 STARTUP IDEA
"
    ∧ Py.endswith h_strategy "## 🎯 BUSINESS STRATEGY ANALYSIS
### By Strategy Agent (CEO)

"
    ∧ Py.endswith h_technical "## 💻 TECHNICAL ARCHITECTURE & PLAN
### By Technical Agent (CTO)

"
    ∧ Py.endswith h_marketing "## 📢 MARKETING STRATEGY & GO-TO-MARKET
### By Marketing Agent (CMO)

"
    ∧ Py.contains "## ✅ NEXT STEPS & ACTION ITEMS" next_steps
    ∧ Py.contains "1. **Week 1-2**: Validate assumptions with target customers (from Strategy)
2. **Week 3-4**: Set up technical infrastructure (from Technical)
3. **Week 4-6**: Begin pre-launch marketing activities (from Marketing)
4. **Month 2**: Start MVP development
5. **Month 3**: Beta testing and launch preparation
" next_steps
    ∧ ∀ (self : StartupCoFounderWorkflow.t) (state : AgentState) (log : list Call)
        (idea A B C : string),
        state !! "startup_idea" = Some idea →
        state !! "strategy_analysis" = Some A →
        state !! "technical_analysis" = Some B →
        state !! "marketing_strategy" = Some C →
        ∃ (state' : AgentState) (report : string),
          _compile_final_report self state log = (log, inr state')
          ∧ state' !! "final_report" = Some report
          ∧ report =
              h_idea +:+ idea +:+ h_strategy +:+ A +:+ h_technical +:+ B
              +:+ h_marketing +:+ C +:+ next_steps
          ∧ Py.contains idea report ∧ Py.contains A report
          ∧ Py.contains B report ∧ Py.contains C report.
Proof.
  eexists _, _, _, _, _.
  refine (conj _ (conj _ (conj _ (conj _ (conj _ (conj _ _)))))); cycle 6.
  - intros self state log idea A B C Hidea HA HB HC.
    rewrite (compile_final_report_eq self state idea A B C) by assumption.
    eexists _, _. split; [reflexivity|].
    split; [rewrite lookup_insert_ne by discriminate; apply lookup_insert_eq|].
    split; [unfold final_report_text; reflexivity|].
    unfold final_report_text. repeat split.
    + apply contains_middle.
    + rewrite <- 2!append_assoc. apply contains_middle.
    + rewrite <- 4!append_assoc. apply contains_middle.
    + rewrite <- 6!append_assoc. apply contains_middle.
  - apply endswith_b_spec. vm_compute. reflexivity.
  - apply endswith_b_spec. vm_compute. reflexivity.
  - apply endswith_b_spec. vm_compute. reflexivity.
  - apply endswith_b_spec. vm_compute. reflexivity.
  - apply contains_b_spec. vm_compute. reflexivity.
  - apply contains_b_spec. vm_compute. reflexivity.
Qed.

(** C2, at the state a stubbed run reaches before the report is compiled. *)
Lemma compile_final_report_layout_witness :
  ∃ (state' : AgentState) (report : string),
    _compile_final_report (StartupCoFounderWorkflow.__init__ (stub_groq "S" "T" "M"))
      (after_marketing "X" "S" "T" "M") [] = ([], inr state')
    ∧ state' !! "final_report" = Some report
    ∧ Py.contains "X" report ∧ Py.contains "S" report
    ∧ Py.contains "T" report ∧ Py.contains "M" report.
Proof.
  destruct compile_final_report_layout
    as (h1 & h2 & h3 & h4 & h5 & _ & _ & _ & _ & _ & _ & Hlayout).
  destruct (Hlayout (StartupCoFounderWorkflow.__init__ (stub_groq "S" "T" "M"))
              (after_marketing "X" "S" "T" "M") [] "X" "S" "T" "M"
              eq_refl eq_refl eq_refl eq_refl)
    as (state' & report & Hrun & Hget & _ & HX & HS & HT & HM).
  exists state', report. repeat split; assumption.
Defined.

(** C5 (as the code has it).  With idea ["X"] and generators stubbed to answer
    ["S"], ["T"] and ["M"], the run succeeds and [final_report] is the template
    text with the four values in its four slots, in the order idea, strategy,
    technical, marketing, followed by the five fixed items. *)
Theorem end_to_end_report :
  ∃ (log' : list Call) (result : AgentState),
    analyze_startup (StartupCoFounderWorkflow.__init__ (stub_groq "S" "T" "M")) "X" [] =
      (log', inr result)
    ∧ result !! "final_report" = Some "
# 🚀 COMPREHENSIVE STARTUP ANALYSIS
## Generated by AI Co-Founder Team

---

## 📋 STARTUP IDEA
X

---

## 🎯 BUSINESS STRATEGY ANALYSIS
### By Strategy Agent (CEO)

S

---

## 💻 TECHNICAL ARCHITECTURE & PLAN
### By Technical Agent (CTO)

T

---

## 📢 MARKETING STRATEGY & GO-TO-MARKET
### By Marketing Agent (CMO)

M

---

## ✅ NEXT STEPS & ACTION ITEMS

Based on the collaborative analysis above, here are the immediate priorities:

1. **Week 1-2**: Validate assumptions with target customers (from Strategy)
2. **Week 3-4**: Set up technical infrastructure (from Technical)
3. **Week 4-6**: Begin pre-launch marketing activities (from Marketing)
4. **Month 2**: Start MVP development
5. **Month 3**: Beta testing and launch preparation

---

*This report was generated by a multi-agent AI system where each agent built upon the insights of previous agents to create a cohesive, unified strategy.*
".
Proof.
  eexists _, _. split; [rewrite analyze_startup_eq; reflexivity|].
  reflexivity.
Qed.

(** C5 as stated fails: the four letters are not unique in the report, since
    the fixed text of the template has them too. *)
Lemma end_to_end_letters_not_unique :
  ∃ (log' : list Call) (result : AgentState) (report : string),
    analyze_startup (StartupCoFounderWorkflow.__init__ (stub_groq "S" "T" "M")) "X" [] =
      (log', inr result)
    ∧ result !! "final_report" = Some report
    ∧ Py.occurrences "X" report = 2
    ∧ Py.occurrences "S" report = 20
    ∧ Py.occurrences "T" report = 24
    ∧ Py.occurrences "M" report = 11.
Proof.
  eexists _, _, _. split; [rewrite analyze_startup_eq; reflexivity|].
  split; [reflexivity|].
  repeat split; vm_compute; reflexivity.
Qed.

(** ** Which instruction a stage builds *)

Lemma technical_prompt_falsy (idea : string) (context : option string) :
  Py.truthy context = false →
  TechnicalAgent.prompt idea context = TechnicalAgent.prompt idea None.
Proof. intros H. unfold TechnicalAgent.prompt. now rewrite H. Qed.

Lemma technical_prompt_no_context_free (idea : string) :
  ¬ Py.contains "BUSINESS STRATEGY" idea →
  ¬ Py.contains "BUSINESS STRATEGY" (TechnicalAgent.prompt idea None).
Proof.
  intros Hidea H. unfold TechnicalAgent.prompt, Py.truthy in H.
  apply contains_in_slot in H as [H|[H|H]];
    [ | contradiction | | reflexivity
      | apply endswith_b_spec; vm_compute; reflexivity | reflexivity ];
    apply contains_b_spec in H; vm_compute in H; discriminate.
Qed.

Lemma technical_prompt_with_context (idea text : string) :
  text ≠ "" →
  Py.contains ("**BUSINESS STRATEGY ANALYSIS:**
" +:+ text +:+ "
") (TechnicalAgent.prompt idea (Some text)).
Proof.
  intros Hne. unfold TechnicalAgent.prompt.
  destruct text as [|a text]; [contradiction|]. unfold Py.truthy, Py.str.
  exists "Based on the business strategy analysis below, provide comprehensive technical recommendations.

".
  eexists. rewrite !append_assoc. reflexivity.
Qed.

Lemma marketing_prompt_falsy (idea : string) (strategy technical : option string) :
  Py.truthy strategy = false →
  MarketingAgent.prompt idea strategy technical = MarketingAgent.prompt idea None None.
Proof. intros H. unfold MarketingAgent.prompt. now rewrite H. Qed.

Lemma marketing_prompt_strategy_only (idea : string) (strategy technical : option string) :
  Py.truthy strategy = true → Py.truthy technical = false →
  MarketingAgent.prompt idea strategy technical = MarketingAgent.prompt idea strategy None.
Proof. intros Hs Ht. unfold MarketingAgent.prompt. now rewrite Hs, Ht. Qed.

Lemma marketing_prompt_strategy_section (idea text : string) :
  text ≠ "" →
  Py.contains ("**BUSINESS STRATEGY:**
" +:+ text +:+ "
") (MarketingAgent.prompt idea (Some text) None).
Proof.
  intros Hne. unfold MarketingAgent.prompt.
  destruct text as [|a text]; [contradiction|]. unfold Py.truthy, Py.str. simpl andb.
  exists "Based on the business strategy below, create a marketing strategy:

".
  eexists. rewrite !append_assoc. reflexivity.
Qed.

Lemma marketing_prompt_no_context_free (sub idea : string) :
  sub = "BUSINESS STRATEGY" ∨ sub = "TECHNICAL PLAN" →
  ¬ Py.contains sub idea →
  ¬ Py.contains sub (MarketingAgent.prompt idea None None).
Proof.
  intros Hsub Hidea H. unfold MarketingAgent.prompt, Py.truthy in H. simpl andb in H.
  cbv iota in H.
  apply contains_in_slot in H as [H|[H|H]];
    [ | contradiction | | destruct Hsub as [-> | ->]; reflexivity
      | apply endswith_b_spec; vm_compute; reflexivity | reflexivity ];
    apply contains_b_spec in H; destruct Hsub as [-> | ->];
    vm_compute in H; discriminate.
Qed.

(** C7 (as the code has it).  The Technical stage sends its generator the
    system prompt and one instruction.  When the strategy context is absent
    or empty, that instruction has no ["BUSINESS STRATEGY"] in it unless the
    idea itself has; when the context is a non-empty text, the instruction
    contains the label line [**BUSINESS STRATEGY ANALYSIS:**] followed by that
    text on the next line. *)
Theorem technical_prompt_context_selection
    (agent : TechnicalAgent.t) (idea : string) (context : option string)
    (log : list Call) :
  let instruction := TechnicalAgent.prompt idea context in
  (TechnicalAgent.analyze_technical_requirements agent idea context log).1 =
    (log ++ [ mkCall (ChatGroq.client (TechnicalAgent.llm agent))
                [ SystemMessage (TechnicalAgent.system_prompt agent);
                  HumanMessage instruction ] ])%list
  ∧ (Py.truthy context = false →
     ¬ Py.contains "BUSINESS STRATEGY" idea →
     ¬ Py.contains "BUSINESS STRATEGY" instruction)
  ∧ (∀ text : string,
       context = Some text → text ≠ "" →
       Py.contains ("**BUSINESS STRATEGY ANALYSIS:**
" +:+ text +:+ "
") instruction).
Proof.
  intros instruction. split; [|split].
  - now rewrite analyze_technical_requirements_eq.
  - intros Hfalsy Hidea. unfold instruction.
    rewrite technical_prompt_falsy by assumption.
    now apply technical_prompt_no_context_free.
  - intros text -> Hne. now apply technical_prompt_with_context.
Qed.

(** C7, with no context and with the context ["S"]. *)
Lemma technical_prompt_context_selection_witness :
  ¬ Py.contains "BUSINESS STRATEGY" (TechnicalAgent.prompt "X" None)
  ∧ Py.contains "**BUSINESS STRATEGY ANALYSIS:**
S
" (TechnicalAgent.prompt "X" (Some "S")).
Proof.
  split.
  - apply (proj1 (proj2 (technical_prompt_context_selection
                           (TechnicalAgent.__init__ (stub_groq "S" "T" "M"))
                           "X" None []))).
    + reflexivity.
    + apply not_contains_b. vm_compute. reflexivity.
  - apply (proj2 (proj2 (technical_prompt_context_selection
                           (TechnicalAgent.__init__ (stub_groq "S" "T" "M"))
                           "X" (Some "S") [])) "S").
    + reflexivity.
    + discriminate.
Defined.

(** C7 as stated fails twice: an empty strategy context is a supplied context,
    yet the instruction built from it has no ["BUSINESS STRATEGY"] section;
    and with no context at all the instruction does hold such a section when
    the idea text itself is one. *)
Lemma technical_prompt_context_selection_counterexample :
  ¬ Py.contains "BUSINESS STRATEGY" (TechnicalAgent.prompt "X" (Some ""))
  ∧ Py.contains "**BUSINESS STRATEGY ANALYSIS:**
our plan
" (TechnicalAgent.prompt "Tool. **BUSINESS STRATEGY ANALYSIS:**
our plan
" None).
Proof.
  split.
  - apply not_contains_b. vm_compute. reflexivity.
  - apply contains_b_spec. vm_compute. reflexivity.
Qed.

(** C10 (as the code has it).  Both stages choose their template by the
    truthiness of the context arguments, so an empty text counts as no
    context.  With an empty strategy context the Technical stage builds its
    no-context instruction, and the Marketing stage builds its no-context
    instruction whatever the technical context is; these have no
    ["BUSINESS STRATEGY"] and no ["TECHNICAL PLAN"] in them unless the idea
    has.  With a non-empty strategy context and an empty technical context the
    Marketing stage builds its strategy-only instruction, which still holds
    the label line [**BUSINESS STRATEGY:**] followed by the strategy text.  In
    the pipeline, a state whose [strategy_analysis] is empty makes both nodes
    send these no-context instructions. *)
Theorem empty_context_selects_template (idea : string) :
  TechnicalAgent.prompt idea (Some "") = TechnicalAgent.prompt idea None
  ∧ (∀ technical : option string,
       MarketingAgent.prompt idea (Some "") technical =
         MarketingAgent.prompt idea None None)
  ∧ (¬ Py.contains "BUSINESS STRATEGY" idea →
     ¬ Py.contains "BUSINESS STRATEGY" (TechnicalAgent.prompt idea None)
     ∧ ¬ Py.contains "BUSINESS STRATEGY" (MarketingAgent.prompt idea None None))
  ∧ (¬ Py.contains "TECHNICAL PLAN" idea →
     ¬ Py.contains "TECHNICAL PLAN" (MarketingAgent.prompt idea None None))
  ∧ (∀ text : string,
       text ≠ "" →
       MarketingAgent.prompt idea (Some text) (Some "") =
         MarketingAgent.prompt idea (Some text) None
       ∧ Py.contains ("**BUSINESS STRATEGY:**
" +:+ text +:+ "
") (MarketingAgent.prompt idea (Some text) (Some "")))
  ∧ (∀ (self : StartupCoFounderWorkflow.t) (state : AgentState) (log : list Call),
       state !! "startup_idea" = Some idea →
       state !! "strategy_analysis" = Some "" →
       (_run_technical_agent self state log).1 =
         (log ++ [ mkCall (ChatGroq.client (TechnicalAgent.llm (technical_agent self)))
                     [ SystemMessage (TechnicalAgent.system_prompt (technical_agent self));
                       HumanMessage (TechnicalAgent.prompt idea None) ] ])%list
       ∧ ∀ t : string,
           state !! "technical_analysis" = Some t →
           (_run_marketing_agent self state log).1 =
             (log ++ [ mkCall (ChatGroq.client (MarketingAgent.llm (marketing_agent self)))
                         [ SystemMessage
                             (MarketingAgent.system_prompt (marketing_agent self));
                           HumanMessage (MarketingAgent.prompt idea None None) ] ])%list).
Proof.
  split; [reflexivity|].
  split; [intros technical; now apply marketing_prompt_falsy|].
  split; [intros Hidea; split|].
  { now apply technical_prompt_no_context_free. }
  { apply marketing_prompt_no_context_free; [now left|assumption]. }
  split; [intros Hidea; apply marketing_prompt_no_context_free; [now right|assumption]|].
  split.
  - intros text Hne.
    assert (MarketingAgent.prompt idea (Some text) (Some "") =
              MarketingAgent.prompt idea (Some text) None) as Heq.
    { apply marketing_prompt_strategy_only; [|reflexivity]. now destruct text. }
    split; [exact Heq|]. rewrite Heq. now apply marketing_prompt_strategy_section.
  - intros self state log Hidea Hs. split.
    + rewrite (run_technical_agent_eq self state idea "") by assumption.
      rewrite analyze_technical_requirements_eq.
      rewrite (technical_prompt_falsy idea (Some "")) by reflexivity.
      now destruct (ChatGroq.reply _ _ _).
    + intros t Ht.
      rewrite (run_marketing_agent_eq self state idea "" t) by assumption.
      rewrite create_marketing_strategy_eq.
      rewrite (marketing_prompt_falsy idea (Some "") (Some t)) by reflexivity.
      now destruct (ChatGroq.reply _ _ _).
Qed.

(** C10, at the idea ["X"] and the strategy text ["S"]. *)
Lemma empty_context_selects_template_witness :
  ¬ Py.contains "BUSINESS STRATEGY" (MarketingAgent.prompt "X" (Some "") (Some "T"))
  ∧ Py.contains "**BUSINESS STRATEGY:**
S
" (MarketingAgent.prompt "X" (Some "S") (Some "")).
Proof.
  pose proof (empty_context_selects_template "X") as (_ & Hm & Hfree & _ & Honly & _).
  split.
  - rewrite Hm. apply Hfree. apply not_contains_b. vm_compute. reflexivity.
  - apply (Honly "S"). discriminate.
Defined.

(** C10 as stated fails for the Marketing stage: when only the technical
    context is empty it does not build the no-context instruction but the
    strategy-only one, which has a labeled strategy section. *)
Lemma empty_context_selects_template_counterexample :
  MarketingAgent.prompt "X" (Some "S") (Some "") ≠ MarketingAgent.prompt "X" None None
  ∧ Py.contains "**BUSINESS STRATEGY:**
S
" (MarketingAgent.prompt "X" (Some "S") (Some "")).
Proof.
  split.
  - vm_compute. discriminate.
  - apply contains_b_spec. vm_compute. reflexivity.
Qed.

(** * Further properties of the code *)

(** ** How a run ends *)

(** X1.  When the service answers every call, [analyze_startup] returns a
    result for every idea, the empty one included, after exactly three calls:
    one to the Strategy client, then one to the Technical client, then one to
    the Marketing client. *)
Theorem analyze_startup_returns (groq : Groq) (idea : string) (log : list Call) :
  always_answers groq →
  ∃ (c1 c2 c3 : Call) (result : AgentState),
    analyze_startup (StartupCoFounderWorkflow.__init__ groq) idea log =
      ((log ++ [c1; c2; c3])%list, inr result)
    ∧ callee c1 = StrategyLLM
    ∧ callee c2 = TechnicalLLM
    ∧ callee c3 = MarketingLLM.
Proof.
  intros Hgroq. rewrite analyze_startup_eq.
  rewrite analyze_startup_idea_eq. simpl ChatGroq.reply.
  match goal with |- context [groq StrategyLLM ?l ?ms] =>
    destruct (Hgroq StrategyLLM l ms) as [s ->] end.
  rewrite analyze_technical_requirements_eq. simpl ChatGroq.reply.
  match goal with |- context [groq TechnicalLLM ?l ?ms] =>
    destruct (Hgroq TechnicalLLM l ms) as [t ->] end.
  rewrite create_marketing_strategy_eq. simpl ChatGroq.reply.
  match goal with |- context [groq MarketingLLM ?l ?ms] =>
    destruct (Hgroq MarketingLLM l ms) as [m ->] end.
  eexists _, _, _, _. split; [rewrite <- !app_assoc; reflexivity|].
  repeat split.
Qed.

(** X1, at the empty idea with stubbed generators. *)
Lemma analyze_startup_returns_witness :
  ∃ (log' : list Call) (result : AgentState),
    analyze_startup (StartupCoFounderWorkflow.__init__ (stub_groq "S" "T" "M")) "" [] =
      (log', inr result)
    ∧ length log' = 3.
Proof.
  destruct (analyze_startup_returns (stub_groq "S" "T" "M") "" [])
    as (c1 & c2 & c3 & result & Hrun & _).
  - intros c log messages. destruct c; eexists; reflexivity.
  - exists [c1; c2; c3], result. split; [exact Hrun|reflexivity].
Defined.

(** X2.  [analyze_startup] raises nothing of its own.  When it raises [e],
    the last call in the log is a generator call that raised [e], and the run
    made one, two or three calls, to the Strategy, Technical and Marketing
    clients in that order: no key of the state is ever missing and the walk
    never exceeds the recursion limit. *)
Theorem analyze_startup_failure_origin
    (groq : Groq) (idea : string) (log log' : list Call) (e : Exn) :
  analyze_startup (StartupCoFounderWorkflow.__init__ groq) idea log = (log', inl e) →
  ∃ (earlier : list Call) (call : Call),
    log' = (log ++ earlier ++ [call])%list
    ∧ groq (callee call) (log ++ earlier)%list (sent call) = inl e
    ∧ (List.map callee (earlier ++ [call]) = [StrategyLLM]
       ∨ List.map callee (earlier ++ [call]) = [StrategyLLM; TechnicalLLM]
       ∨ List.map callee (earlier ++ [call]) =
           [StrategyLLM; TechnicalLLM; MarketingLLM]).
Proof.
  rewrite analyze_startup_eq.
  rewrite analyze_startup_idea_eq. simpl ChatGroq.reply. simpl ChatGroq.client.
  match goal with |- context [groq StrategyLLM ?l ?ms] =>
    destruct (groq StrategyLLM l ms) as [e1|s] eqn:H1 end.
  { intros [= <- <-]. exists [], (mkCall StrategyLLM
      [ SystemMessage (StrategyAgent.system_prompt
                         (strategy_agent (StartupCoFounderWorkflow.__init__ groq)));
        HumanMessage (StrategyAgent.prompt idea) ]).
    split; [reflexivity|]. split; [rewrite app_nil_r; exact H1|]. now left. }
  rewrite analyze_technical_requirements_eq. simpl ChatGroq.reply. simpl ChatGroq.client.
  match goal with |- context [groq TechnicalLLM ?l ?ms] =>
    destruct (groq TechnicalLLM l ms) as [e2|t] eqn:H2 end.
  { intros [= <- <-]. eexists [_], (mkCall TechnicalLLM _).
    split; [rewrite <- app_assoc; reflexivity|]. split; [exact H2|]. right. now left. }
  rewrite create_marketing_strategy_eq. simpl ChatGroq.reply. simpl ChatGroq.client.
  match goal with |- context [groq MarketingLLM ?l ?ms] =>
    destruct (groq MarketingLLM l ms) as [e3|m] eqn:H3 end; [|discriminate].
  intros [= <- <-]. eexists [_; _], (mkCall MarketingLLM _).
  split; [rewrite <- !app_assoc; reflexivity|].
  split; [rewrite <- app_assoc in H3; exact H3|]. right. now right.
Qed.

(** X2, at a service whose technical generator is down. *)
Lemma analyze_startup_failure_origin_witness :
  ∃ (earlier : list Call) (call : Call),
    technical_down_groq "S" (APIError "timeout") "M" (callee call) earlier (sent call) =
      inl (APIError "timeout").
Proof.
  pose (groq := technical_down_groq "S" (APIError "timeout") "M").
  assert (∃ log', analyze_startup (StartupCoFounderWorkflow.__init__ groq) "X" [] =
                    (log', inl (APIError "timeout"))) as [log' Hrun].
  { eexists. rewrite analyze_startup_eq. reflexivity. }
  destruct (analyze_startup_failure_origin groq "X" [] log' _ Hrun)
    as (earlier & call & _ & Hraise & _).
  exists earlier, call. exact Hraise.
Defined.

(** ** Single nodes *)

Section NodeEdges.

Variable self : StartupCoFounderWorkflow.t.

(** Splits a goal on whether [state] has the key that is read next, keeping
    both cases. *)
Ltac read_or_miss state key :=
  let v := fresh "v" in
  let H := fresh "H" in
  rewrite bind_eq;
  destruct (state !! key) as [v|] eqn:H;
  [ rewrite (getitem_lookup _ _ _ _ H)
  | rewrite (getitem_missing _ _ _ H) ].

(** X3.  A node reads its keys in a fixed order before it does anything else:
    on a state that lacks one of them it raises [KeyError] for the first
    missing key and calls no generator.  The compile node, which calls no
    generator at all, returns exactly when the state has the four keys it
    reads. *)
Theorem nodes_raise_on_missing_key (state : AgentState) (log : list Call) (key : string) :
  (first_missing ["startup_idea"] state = Some key →
   _run_strategy_agent self state log = (log, inl (KeyError key)))
  ∧ (first_missing ["startup_idea"; "strategy_analysis"] state = Some key →
     _run_technical_agent self state log = (log, inl (KeyError key)))
  ∧ (first_missing ["startup_idea"; "strategy_analysis"; "technical_analysis"] state =
       Some key →
     _run_marketing_agent self state log = (log, inl (KeyError key)))
  ∧ (first_missing
       ["startup_idea"; "strategy_analysis"; "technical_analysis"; "marketing_strategy"]
       state = Some key →
     _compile_final_report self state log = (log, inl (KeyError key)))
  ∧ (first_missing
       ["startup_idea"; "strategy_analysis"; "technical_analysis"; "marketing_strategy"]
       state = None →
     ∃ state' : AgentState, _compile_final_report self state log = (log, inr state')).
Proof.
  unfold first_missing.
  split; [|split; [|split; [|split]]].
  - unfold _run_strategy_agent. read_or_miss state "startup_idea"; [discriminate|].
    now intros [= <-].
  - unfold _run_technical_agent.
    read_or_miss state "startup_idea"; [|now intros [= <-]].
    read_or_miss state "strategy_analysis"; [discriminate|now intros [= <-]].
  - unfold _run_marketing_agent.
    read_or_miss state "startup_idea"; [|now intros [= <-]].
    read_or_miss state "strategy_analysis"; [|now intros [= <-]].
    read_or_miss state "technical_analysis"; [discriminate|now intros [= <-]].
  - unfold _compile_final_report.
    read_or_miss state "startup_idea"; [|now intros [= <-]].
    read_or_miss state "strategy_analysis"; [|now intros [= <-]].
    read_or_miss state "technical_analysis"; [|now intros [= <-]].
    read_or_miss state "marketing_strategy"; [discriminate|now intros [= <-]].
  - unfold _compile_final_report.
    read_or_miss state "startup_idea"; [|discriminate].
    read_or_miss state "strategy_analysis"; [|discriminate].
    read_or_miss state "technical_analysis"; [|discriminate].
    read_or_miss state "marketing_strategy"; [|discriminate].
    intros _. eexists. reflexivity.
Qed.

Lemma writes_only_inserts (state : AgentState) (key label text : string) :
  key ≠ "current_step" →
  let state' := <["current_step" := label]> (<[key := text]> state) in
  state' !! "current_step" = Some label
  ∧ is_Some (state' !! key)
  ∧ ∀ other : string,
      other ≠ key → other ≠ "current_step" → state' !! other = state !! other.
Proof.
  intros Hkey state'. unfold state'. split; [apply lookup_insert_eq|]. split.
  - rewrite lookup_insert_ne by congruence. rewrite lookup_insert_eq. now eexists.
  - intros other H1 H2. now rewrite !lookup_insert_ne by congruence.
Qed.

(** X4.  A node that returns has written its own entry and [current_step]
    and nothing else: every other entry of the state, whether one of the
    declared keys or not, is as it was. *)
Theorem nodes_write_only_their_entry :
  writes_only (_run_strategy_agent self) "strategy_analysis" "Strategy Complete"
  ∧ writes_only (_run_technical_agent self) "technical_analysis" "Technical Complete"
  ∧ writes_only (_run_marketing_agent self) "marketing_strategy" "Marketing Complete"
  ∧ writes_only (_compile_final_report self) "final_report" "Complete".
Proof.
  split; [|split; [|split]]; intros state state' log log'.
  - unfold _run_strategy_agent.
    read_or_miss state "startup_idea"; [|discriminate]. rewrite bind_eq.
    destruct (StrategyAgent.analyze_startup_idea _ _ _) as [log1 [e|s]]; [discriminate|].
    intros [= _ <-]. now apply writes_only_inserts.
  - unfold _run_technical_agent.
    read_or_miss state "startup_idea"; [|discriminate].
    read_or_miss state "strategy_analysis"; [|discriminate]. rewrite bind_eq.
    destruct (TechnicalAgent.analyze_technical_requirements _ _ _ _) as [log1 [e|t]];
      [discriminate|].
    intros [= _ <-]. now apply writes_only_inserts.
  - unfold _run_marketing_agent.
    read_or_miss state "startup_idea"; [|discriminate].
    read_or_miss state "strategy_analysis"; [|discriminate].
    read_or_miss state "technical_analysis"; [|discriminate]. rewrite bind_eq.
    destruct (MarketingAgent.create_marketing_strategy _ _ _ _ _) as [log1 [e|m]];
      [discriminate|].
    intros [= _ <-]. now apply writes_only_inserts.
  - unfold _compile_final_report.
    read_or_miss state "startup_idea"; [|discriminate].
    read_or_miss state "strategy_analysis"; [|discriminate].
    read_or_miss state "technical_analysis"; [|discriminate].
    read_or_miss state "marketing_strategy"; [|discriminate].
    intros [= _ <-]. now apply writes_only_inserts.
Qed.


End NodeEdges.

(** X3, at a state that has the idea only. *)
Lemma nodes_raise_on_missing_key_witness :
  _run_technical_agent (StartupCoFounderWorkflow.__init__ (stub_groq "S" "T" "M"))
    {[ "startup_idea" := "X" ]} [] = ([], inl (KeyError "strategy_analysis")).
Proof.
  exact (proj1 (proj2 (nodes_raise_on_missing_key
                         (StartupCoFounderWorkflow.__init__ (stub_groq "S" "T" "M"))
                         {[ "startup_idea" := "X" ]} [] "strategy_analysis"))
           eq_refl).
Defined.

(** X4, at the Strategy node on a state with a key of its own. *)
Lemma nodes_write_only_their_entry_witness :
  ∃ state' : AgentState,
    state' !! "note" = Some "kept" ∧ state' !! "current_step" = Some "Strategy Complete".
Proof.
  pose (self := StartupCoFounderWorkflow.__init__ (stub_groq "S" "T" "M")).
  pose (state := <["note" := "kept"]> (initial_state "X") : AgentState).
  assert (∃ log' state', _run_strategy_agent self state [] = (log', inr state'))
    as (log' & state' & Hrun).
  { eexists _, _. rewrite (run_strategy_agent_eq self state "X") by reflexivity.
    reflexivity. }
  destruct (proj1 (nodes_write_only_their_entry self) state state' [] log' Hrun)
    as (Hstep & _ & Hother).
  exists state'. split; [|exact Hstep].
  rewrite (Hother "note") by discriminate. reflexivity.
Defined.

(** ** Instructions *)

Lemma string_length_append (s x : string) :
  String.length (s +:+ x) = String.length s + String.length x.
Proof.
  induction s as [|a s IH]; [reflexivity|].
  rewrite append_cons. simpl. now rewrite IH.
Qed.

Lemma append_cancel_r (s1 s2 x : string) : s1 +:+ x = s2 +:+ x → s1 = s2.
Proof.
  revert s2; induction s1 as [|a s1 IH]; intros [|b s2] H.
  - reflexivity.
  - apply (f_equal String.length) in H.
    rewrite append_nil_l, append_cons in H. simpl in H.
    rewrite string_length_append in H. lia.
  - apply (f_equal String.length) in H.
    rewrite append_nil_l, append_cons in H. simpl in H.
    rewrite string_length_append in H. lia.
  - rewrite !append_cons in H. injection H as -> H. f_equal. now apply IH.
Qed.

Lemma append_cancel_l (s x1 x2 : string) : s +:+ x1 = s +:+ x2 → x1 = x2.
Proof.
  induction s as [|a s IH]; [now rewrite !append_nil_l|].
  rewrite !append_cons. intros [= H]. now apply IH.
Qed.

(** A text with one slot tells its filling. *)
Lemma slot_inj (pre post x1 x2 : string) :
  pre +:+ x1 +:+ post = pre +:+ x2 +:+ post → x1 = x2.
Proof. intros H. apply append_cancel_l in H. now apply append_cancel_r in H. Qed.

(** X6.  Every instruction an agent builds holds the idea verbatim, in each
    of its templates: the full analyses with any combination of contexts, the
    two quick assessments and the launch campaign. *)
Theorem instructions_contain_idea
    (idea launch_date : string) (strategy technical : option string) :
  Py.contains idea (StrategyAgent.prompt idea)
  ∧ Py.contains idea (TechnicalAgent.prompt idea strategy)
  ∧ Py.contains idea (MarketingAgent.prompt idea strategy technical)
  ∧ Py.contains idea (StrategyAgent.quick_prompt idea)
  ∧ Py.contains idea (TechnicalAgent.quick_prompt idea)
  ∧ Py.contains idea (MarketingAgent.launch_prompt idea launch_date).
Proof.
  split; [apply contains_middle|].
  split.
  { unfold TechnicalAgent.prompt. destruct (Py.truthy strategy).
    - rewrite <- 2!append_assoc. apply contains_middle.
    - apply contains_middle. }
  split.
  { unfold MarketingAgent.prompt.
    destruct (Py.truthy strategy); [destruct (Py.truthy technical)|]; simpl andb; cbv iota.
    - rewrite <- 4!append_assoc. apply contains_middle.
    - rewrite <- 2!append_assoc. apply contains_middle.
    - apply contains_middle. }
  repeat split; apply contains_middle.
Qed.

(** X7.  With a non-empty strategy text and a non-empty technical text the
    Marketing instruction holds, in this order and one right after the other,
    the CEO section with the strategy text, the CTO section with the technical
    text and the idea section with the idea. *)
Theorem marketing_prompt_full_context (idea s t : string) :
  s ≠ "" → t ≠ "" →
  Py.contains
    ("**CEO'S BUSINESS STRATEGY:**
" +:+ s +:+ "

**CTO'S TECHNICAL PLAN:**
" +:+ t +:+ "

**ORIGINAL STARTUP IDEA:**
" +:+ idea +:+ "
")
    (MarketingAgent.prompt idea (Some s) (Some t)).
Proof.
  intros Hs Ht. unfold MarketingAgent.prompt.
  destruct s as [|a s]; [contradiction|]. destruct t as [|b t]; [contradiction|].
  unfold Py.truthy, Py.str. simpl andb. cbv iota.
  exists "You are the CMO. Read the analyses from your CEO (Strategy) and CTO (Technical) below, then create a marketing strategy that aligns with both.

".
  eexists. rewrite !append_assoc. reflexivity.
Qed.

(** X7, at the texts ["S"] and ["T"]. *)
Lemma marketing_prompt_full_context_witness :
  Py.contains
    "**CEO'S BUSINESS STRATEGY:**
S

**CTO'S TECHNICAL PLAN:**
T

**ORIGINAL STARTUP IDEA:**
X
"
    (MarketingAgent.prompt "X" (Some "S") (Some "T")).
Proof.
  apply (marketing_prompt_full_context "X" "S" "T"); discriminate.
Defined.

(** X8.  In a successful run whose strategy and technical texts are not
    empty, the pipeline hands them on: the instruction sent to the Technical
    generator holds the strategy text under its label, and the instruction
    sent to the Marketing generator holds the strategy text and then the
    technical text under theirs. *)
Theorem pipeline_forwards_context
    (self : StartupCoFounderWorkflow.t) (idea : string)
    (log log' : list Call) (result : AgentState) (s t : string) :
  analyze_startup self idea log = (log', inr result) →
  result !! "strategy_analysis" = Some s →
  result !! "technical_analysis" = Some t →
  s ≠ "" → t ≠ "" →
  ∃ (c1 c2 c3 : Call) (sys2 sys3 p2 p3 : string),
    log' = (log ++ [c1; c2; c3])%list
    ∧ sent c2 = [SystemMessage sys2; HumanMessage p2]
    ∧ sent c3 = [SystemMessage sys3; HumanMessage p3]
    ∧ Py.contains ("**BUSINESS STRATEGY ANALYSIS:**
" +:+ s +:+ "
") p2
    ∧ Py.contains ("**CEO'S BUSINESS STRATEGY:**
" +:+ s +:+ "

**CTO'S TECHNICAL PLAN:**
" +:+ t +:+ "
") p3.
Proof.
  rewrite analyze_startup_eq.
  rewrite analyze_startup_idea_eq.
  destruct (ChatGroq.reply (StrategyAgent.llm _) _ _) as [e|s']; [discriminate|].
  rewrite analyze_technical_requirements_eq.
  destruct (ChatGroq.reply (TechnicalAgent.llm _) _ _) as [e|t']; [discriminate|].
  rewrite create_marketing_strategy_eq.
  destruct (ChatGroq.reply (MarketingAgent.llm _) _ _) as [e|m]; [discriminate|].
  intros [= <- <-] Hs' Ht' Hs Ht.
  assert (s' = s) as -> by (change (Some s' = Some s) in Hs'; congruence).
  assert (t' = t) as -> by (change (Some t' = Some t) in Ht'; congruence).
  eexists _, (mkCall _ _), (mkCall _ _), _, _, _, _.
  split; [rewrite <- !app_assoc; reflexivity|].
  split; [reflexivity|]. split; [reflexivity|]. split.
  - now apply technical_prompt_with_context.
  - destruct (marketing_prompt_full_context idea s t Hs Ht) as (before & after & ->).
    exists before. eexists. rewrite !append_assoc. reflexivity.
Qed.

(** X8, at a run with stubbed generators. *)
Lemma pipeline_forwards_context_witness :
  ∃ (log' : list Call) (c2 c3 : Call) (sys2 p2 : string),
    nth_error log' 1 = Some c2
    ∧ sent c2 = [SystemMessage sys2; HumanMessage p2]
    ∧ Py.contains "**BUSINESS STRATEGY ANALYSIS:**
S
" p2.
Proof.
  pose (self := StartupCoFounderWorkflow.__init__ (stub_groq "S" "T" "M")).
  assert (∃ log', analyze_startup self "X" [] =
                    (log', inr (after_compile "X" "S" "T" "M"))) as [log' Hrun].
  { eexists. rewrite analyze_startup_eq. reflexivity. }
  destruct (pipeline_forwards_context self "X" [] log' _ "S" "T" Hrun eq_refl eq_refl)
    as (c1 & c2 & c3 & sys2 & sys3 & p2 & p3 & -> & H2 & _ & Hp2 & _);
    [discriminate..|].
  exists [c1; c2; c3], c2, c3, sys2, p2. repeat split; assumption.
Defined.

(** X9.  The instructions with a single slot tell the ideas apart: two ideas
    that give the same Strategy instruction, the same no-context Technical or
    Marketing instruction, or the same quick-assessment instruction are the
    same idea. *)
Theorem single_slot_prompts_injective (idea1 idea2 : string) :
  StrategyAgent.prompt idea1 = StrategyAgent.prompt idea2
  ∨ TechnicalAgent.prompt idea1 None = TechnicalAgent.prompt idea2 None
  ∨ MarketingAgent.prompt idea1 None None = MarketingAgent.prompt idea2 None None
  ∨ StrategyAgent.quick_prompt idea1 = StrategyAgent.quick_prompt idea2
  ∨ TechnicalAgent.quick_prompt idea1 = TechnicalAgent.quick_prompt idea2 →
  idea1 = idea2.
Proof.
  intros [H|[H|[H|[H|H]]]]; now apply slot_inj in H.
Qed.

(** X9, at the idea ["X"]. *)
Lemma single_slot_prompts_injective_witness : "X" = "X".
Proof.
  apply (single_slot_prompts_injective "X" "X"). left. reflexivity.
Defined.

(** ** The report and the agents' other methods *)

(** X10.  The report is never cut: its size in bytes is the 911 bytes of the
    fixed text plus the sizes of the idea and of the three analyses. *)
Theorem final_report_length (idea A B C : string) :
  String.length (final_report_text idea A B C) =
    911 + String.length idea + String.length A + String.length B + String.length C.
Proof.
  unfold final_report_text. rewrite !string_length_append.
  repeat match goal with
         | |- context [String.length ?lit] =>
           lazymatch lit with
           | String _ _ =>
             let n := eval vm_compute in (String.length lit) in
             change (String.length lit) with n
           end
         end.
  lia.
Qed.

(** X11.  Compiling twice changes nothing: on the state the compile node
    returned, the node returns that same state again, and calls no
    generator. *)
Theorem compile_final_report_idempotent
    (self : StartupCoFounderWorkflow.t) (state state' : AgentState)
    (log log' : list Call) :
  _compile_final_report self state log = (log', inr state') →
  _compile_final_report self state' log' = (log', inr state').
Proof.
  unfold _compile_final_report at 1.
  rewrite bind_eq. destruct (state !! "startup_idea") as [idea|] eqn:Hidea;
    [rewrite (getitem_lookup _ _ _ _ Hidea)|rewrite (getitem_missing _ _ _ Hidea); discriminate].
  rewrite bind_eq. destruct (state !! "strategy_analysis") as [A|] eqn:HA;
    [rewrite (getitem_lookup _ _ _ _ HA)|rewrite (getitem_missing _ _ _ HA); discriminate].
  rewrite bind_eq. destruct (state !! "technical_analysis") as [B|] eqn:HB;
    [rewrite (getitem_lookup _ _ _ _ HB)|rewrite (getitem_missing _ _ _ HB); discriminate].
  rewrite bind_eq. destruct (state !! "marketing_strategy") as [C|] eqn:HC;
    [rewrite (getitem_lookup _ _ _ _ HC)|rewrite (getitem_missing _ _ _ HC); discriminate].
  intros [= <- <-].
  rewrite (compile_final_report_eq self _ idea A B C)
    by (rewrite !lookup_insert_ne by discriminate; assumption).
  do 2 f_equal. apply map_eq. intros k.
  destruct (decide ("current_step" = k)) as [<-|Hstep]; [now rewrite !lookup_insert_eq|].
  rewrite !(lookup_insert_ne _ "current_step" k) by assumption.
  destruct (decide ("final_report" = k)) as [<-|Hreport]; [now rewrite !lookup_insert_eq|].
  now rewrite !lookup_insert_ne by assumption.
Qed.

(** X11, at the state a stubbed run reaches before the report is compiled. *)
Lemma compile_final_report_idempotent_witness :
  _compile_final_report (StartupCoFounderWorkflow.__init__ (stub_groq "S" "T" "M"))
    (after_compile "X" "S" "T" "M") [] = ([], inr (after_compile "X" "S" "T" "M")).
Proof.
  apply (compile_final_report_idempotent _ (after_marketing "X" "S" "T" "M") _ [] []).
  rewrite (compile_final_report_eq _ _ "X" "S" "T" "M") by reflexivity.
  reflexivity.
Defined.

(** X12.  Each of the six methods of the agents makes exactly one generator
    call per invocation, to the agent's own client, with the agent's system
    prompt as first message and the instruction as second; it returns the
    text the generator answers as it is, and when the generator raises it
    raises the same exception, with no second attempt. *)
Theorem agent_methods_call_once
    (ceo : StrategyAgent.t) (cto : TechnicalAgent.t) (cmo : MarketingAgent.t)
    (idea : string) (strategy technical launch_date : option string) :
  calls_once (StrategyAgent.analyze_startup_idea ceo idea)
    (StrategyAgent.llm ceo) (StrategyAgent.system_prompt ceo)
    (StrategyAgent.prompt idea)
  ∧ calls_once (StrategyAgent.get_quick_feedback ceo idea)
      (StrategyAgent.llm ceo) (StrategyAgent.system_prompt ceo)
      (StrategyAgent.quick_prompt idea)
  ∧ calls_once (TechnicalAgent.analyze_technical_requirements cto idea strategy)
      (TechnicalAgent.llm cto) (TechnicalAgent.system_prompt cto)
      (TechnicalAgent.prompt idea strategy)
  ∧ calls_once (TechnicalAgent.quick_tech_assessment cto idea)
      (TechnicalAgent.llm cto) (TechnicalAgent.system_prompt cto)
      (TechnicalAgent.quick_prompt idea)
  ∧ calls_once (MarketingAgent.create_marketing_strategy cmo idea strategy technical)
      (MarketingAgent.llm cmo) (MarketingAgent.system_prompt cmo)
      (MarketingAgent.prompt idea strategy technical)
  ∧ calls_once (MarketingAgent.create_launch_campaign cmo idea launch_date)
      (MarketingAgent.llm cmo) (MarketingAgent.system_prompt cmo)
      (MarketingAgent.launch_prompt idea (default "in 3 months" launch_date)).
Proof.
  repeat split; intros log messages.
  - apply analyze_startup_idea_eq.
  - unfold StrategyAgent.get_quick_feedback. rewrite bind_eq. unfold ChatGroq.invoke.
    fold messages. now destruct (ChatGroq.reply _ _ _).
  - apply analyze_technical_requirements_eq.
  - unfold TechnicalAgent.quick_tech_assessment. rewrite bind_eq. unfold ChatGroq.invoke.
    fold messages. now destruct (ChatGroq.reply _ _ _).
  - apply create_marketing_strategy_eq.
  - unfold MarketingAgent.create_launch_campaign. rewrite bind_eq. unfold ChatGroq.invoke.
    fold messages. now destruct (ChatGroq.reply _ _ _).
Qed.

(** X13.  A launch campaign asked for without a launch date is the one asked
    for with the date ["in 3 months"]; with a date given, the instruction
    holds the line [Launch date:] with that date, after the idea. *)
Theorem launch_campaign_date
    (cmo : MarketingAgent.t) (idea : string) (log : list Call) :
  MarketingAgent.create_launch_campaign cmo idea None log =
    MarketingAgent.create_launch_campaign cmo idea (Some "in 3 months") log
  ∧ ∀ date : string,
      (MarketingAgent.create_launch_campaign cmo idea (Some date) log).1 =
        (log ++ [ mkCall (ChatGroq.client (MarketingAgent.llm cmo))
                    [ SystemMessage (MarketingAgent.system_prompt cmo);
                      HumanMessage (MarketingAgent.launch_prompt idea date) ] ])%list
      ∧ Py.contains (idea +:+ "

Launch date: " +:+ date +:+ "
") (MarketingAgent.launch_prompt idea date).
Proof.
  split; [reflexivity|]. intros date. split.
  - unfold MarketingAgent.create_launch_campaign. rewrite bind_eq.
    unfold ChatGroq.invoke. simpl default. now destruct (ChatGroq.reply _ _ _).
  - unfold MarketingAgent.launch_prompt.
    exists "Create a detailed launch campaign plan for:

".
    eexists. rewrite !append_assoc. reflexivity.
Qed.
